(** * Invoice and welcome message senders: reconciliation and dispatch

    A shallow embedding of [src/invoice_message.py],
    [src/welcome_new_user.py] and [src/msg_existing_user.py], and the
    properties of their validators and dispatch loops.

    The three pages share their shape: [validate_data] checks the loaded
    table, [send_whatsapp_msg] talks to the provider, [process_and_send]
    loops over the items.  Each page is a module of its own below, with
    the names of the source. *)

From stdpp Require Import gmap list strings sorting.

Set Warnings "-register-all,-clear-no-such-hyp".

(** ** Python strings

    A Python [str] is a sequence of Unicode code points. *)

Definition char := N.
Abbreviation str := (list N).

(** An ASCII literal of the source, as a [str]. *)
Definition py (s : string) : str :=
  (λ a, Ascii.N_of_ascii a) <$> String.list_ascii_of_string s.

(** [str.isspace] on one code point: the code points CPython's
    [_PyUnicode_IsWhitespace] accepts, which are what [str.strip()]
    removes. *)
Definition is_space (c : char) : bool :=
  ((9 <=? c) && (c <=? 13) || (28 <=? c) && (c <=? 32)
   || (c =? 133) || (c =? 160) || (c =? 5760)
   || (8192 <=? c) && (c <=? 8202) || (c =? 8232) || (c =? 8233)
   || (c =? 8239) || (c =? 8287) || (c =? 12288))%N.

(** The code point of ["_"]. *)
Definition underscore : char := 95%N.

Fixpoint lstrip (s : str) : str :=
  match s with
  | c :: s' => if is_space c then lstrip s' else s
  | [] => []
  end.

Definition rstrip (s : str) : str := reverse (lstrip (reverse s)).

(** [s.strip()] *)
Definition strip (s : str) : str := rstrip (lstrip s).

(** [s.split("_")[0]]: the characters before the first ["_"], all of [s]
    when it has none. *)
Fixpoint split_underscore_0 (s : str) : str :=
  match s with
  | [] => []
  | c :: s' => if (c =? underscore)%N then [] else c :: split_underscore_0 s'
  end.

(** Python's [x or None] on a string: the empty string is falsy. *)
Definition or_None (s : str) : option str :=
  match s with [] => None | _ => Some s end.

(** ** Python values

    The values that travel in JSON bodies and in the result dicts.  A
    dict is kept as its list of items. *)

Inductive value :=
| VNone
| VBool (b : bool)
| VInt (z : Z)
| VStr (s : str)
| VList (l : list value)
| VDict (items : list (str * value)).

(** Truth value of a Python object, as [not x] tests it. *)
Definition truthy (v : value) : bool :=
  match v with
  | VNone => false
  | VBool b => b
  | VInt z => negb (z =? 0)%Z
  | VStr s => match s with [] => false | _ => true end
  | VList l => match l with [] => false | _ => true end
  | VDict l => match l with [] => false | _ => true end
  end.

Fixpoint items_get (items : list (str * value)) (k : str) : option value :=
  match items with
  | [] => None
  | (k', v) :: rest => if bool_decide (k' = k) then Some v else items_get rest k
  end.

(** [type(v).__name__] *)
Definition type_name (v : value) : str :=
  match v with
  | VNone => py "NoneType"
  | VBool _ => py "bool"
  | VInt _ => py "int"
  | VStr _ => py "str"
  | VList _ => py "list"
  | VDict _ => py "dict"
  end.

(** Python's [None] for an absent optional string. *)
Definition of_opt (o : option str) : value :=
  match o with Some s => VStr s | None => VNone end.

(** An optional string inside an f-string: [None] prints as ["None"]. *)
Definition fmt_opt (o : option str) : str :=
  match o with Some s => s | None => py "None" end.

(** ** Exceptions and results *)

(** An exception, with the text [str(e)] gives. *)
Inductive exn := Exception (msg : str).

Definition exn_str (e : exn) : str := match e with Exception m => m end.

Inductive result (A : Type) :=
| Ok (a : A)
| Raised (e : exn).
Arguments Ok {A} a.
Arguments Raised {A} e.

(** ** The provider and the page: effects *)

Inductive body :=
| Multipart (data : list (str * str)) (file : str * list N * str)
| Json (payload : value).

(** One [requests.post(url, headers=..., ...)]. *)
Record request := {
  req_url : str;
  req_headers : list (str * str);
  req_body : body
}.

(** What the test of the response reads: [status_code], [text] and
    [json()], which raises on a body that is not JSON. *)
Record response := {
  status_code : Z;
  text : str;
  json : result value
}.

(** The text shown by a Streamlit call.  Where the source interpolates a
    list, a set or a number, the value is kept as it is, beside the
    literal text around it. *)
Inductive fstring :=
| FText (s : str)
| FRows (label : str) (rows : list nat)
| FKeys (label : str) (keys : gset str)
| FCount (before : str) (n : nat) (after : str).

Inductive event :=
| Http (r : request)
| StInfo (m : fstring)
| StWarning (m : fstring)
| StError (m : fstring)
| StSuccess (m : fstring)
| StDataframe (rows : list (list (str * value))).

(** The process environment: the two variables read with [os.getenv], and
    the provider, which answers a request (or makes [requests.post] raise)
    knowing the requests it has received before. *)
Record Env := {
  access_token : option str;
  PHONE_NUMBER_ID : option str;
  provider : list request → request → result response
}.

(** The requests made in a trace, oldest first. *)
Definition http_calls (tr : list event) : list request :=
  omap (λ ev, match ev with Http r => Some r | _ => None end) tr.

(** Computations: they read the trace of events so far, extend it, and
    return a value or raise. *)
Definition M (A : Type) : Type := list event → result A * list event.

Definition ret {A} (a : A) : M A := λ tr, (Ok a, tr).

Definition bind {A B} (m : M A) (k : A → M B) : M B :=
  λ tr, match m tr with
        | (Ok a, tr') => k a tr'
        | (Raised e, tr') => (Raised e, tr')
        end.

Definition raise {A} (e : exn) : M A := λ tr, (Raised e, tr).

(** [try: m  except Exception as e: h e] *)
Definition try_except {A} (m : M A) (h : exn → M A) : M A :=
  λ tr, match m tr with
        | (Ok a, tr') => (Ok a, tr')
        | (Raised e, tr') => h e tr'
        end.

Definition emit (ev : event) : M unit := λ tr, (Ok tt, tr ++ [ev]).

Definition lift {A} (r : result A) : M A :=
  match r with Ok a => ret a | Raised e => raise e end.

Notation "'let*' x ':=' m 'in' k" := (bind m (λ x, k))
  (at level 10, x name, m at level 100, k at level 200).
Notation "m ';;' k" := (bind m (λ _, k))
  (at level 100, k at level 200, right associativity).

Definition st_info (s : str) : M unit := emit (StInfo (FText s)).
Definition st_error (s : str) : M unit := emit (StError (FText s)).

(** [requests.post]: the request goes out, and the provider answers. *)
Definition requests_post (env : Env) (req : request) : M response :=
  λ tr, (provider env (http_calls tr) req, tr ++ [Http req]).

(** [resp.json().get(key)]: decoding may raise, and so does [.get] on
    anything but a dict; a missing key gives [None]. *)
Definition json_get (resp : response) (key : str) : result value :=
  match json resp with
  | Ok (VDict items) => Ok (default VNone (items_get items key))
  | Ok v => Raised (Exception (py "'" ++ type_name v
                               ++ py "' object has no attribute 'get'"))
  | Raised e => Raised e
  end.

(** ** The loaded table *)

(** A cell as [pd.read_excel] gives it: text, a blank cell ([NaN]), or a
    value of another type (a number, a date), kept with the text
    [astype(str)] renders for it.

    [astype_str] is [astype(str)] on one cell.  A blank cell is
    rendered as pandas 2 renders it, as the text ["nan"]; pandas 3 keeps
    it as a missing value.  Either way it is not the empty string, so it
    passes the check for empty cells; what the two versions return for
    it differs, and the properties that depend on it are stated for
    tables without blank required cells. *)
Inductive cell :=
| CStr (s : str)
| CNaN
| COther (shown : str).

Definition astype_str (c : cell) : str :=
  match c with
  | CStr s => s
  | CNaN => py "nan"
  | COther shown => shown
  end.

(** A [DataFrame] with the default index [0 .. n-1]: each row gives the
    cell under a column name.  This is a table whose column names are
    distinct once [load_excel] has stripped and lower-cased them; where
    two headers collide, [df[col]] is a table, not a column, and
    [validate_data] raises.  [columns] can list a name twice, and the
    properties that say a page does not raise ask for [NoDup]. *)
Record DataFrame := {
  columns : list str;
  rows : list (str → cell)
}.

(** [REQUIRED_COLUMNS.issubset(df.columns)] *)
Definition issubset (required : list str) (df : DataFrame) : bool :=
  forallb (λ c, bool_decide (c ∈ columns df)) required.

(** [df[col] = df[col].astype(str).str.strip()] *)
Definition trim_column (df : DataFrame) (col : str) : DataFrame :=
  {| columns := columns df;
     rows := (λ r c, if bool_decide (c = col)
                     then CStr (strip (astype_str (r col)))
                     else r c) <$> rows df |}.

(** [cell == ""], as [Series.eq("")] compares each element. *)
Definition eq_empty (c : cell) : bool :=
  match c with CStr [] => true | _ => false end.

(** [list(df.index[mask])] *)
Fixpoint index_where (mask : list bool) (i : nat) : list nat :=
  match mask with
  | [] => []
  | b :: mask' => if b then i :: index_where mask' (S i)
                  else index_where mask' (S i)
  end.

(** [mask.any()] *)
Definition any (mask : list bool) : bool := existsb id mask.

(** The string a validated column holds at a row. *)
Definition at_col (r : str → cell) (col : str) : str := astype_str (r col).

(** [Series.unique()]: the distinct values, in order of first
    appearance. *)
Fixpoint unique_from (seen : list str) (l : list str) : list str :=
  match l with
  | [] => []
  | x :: l' => if bool_decide (x ∈ seen) then unique_from seen l'
               else x :: unique_from (x :: seen) l'
  end.

Definition unique (l : list str) : list str := unique_from [] l.

(** A dict literal with the string keys of the source. *)
Definition dict_items (l : list (string * value)) : list (str * value) :=
  (λ kv, (py kv.1, kv.2)) <$> l.

Definition dict (l : list (string * value)) : value := VDict (dict_items l).

(** [for x in l: ...], the loop body threading what it updates. *)
Fixpoint for_each {A S} (body : S → A → M S) (l : list A) (s : S) : M S :=
  match l with
  | [] => ret s
  | x :: l' => let* s' := body s x in for_each body l' s'
  end.

(** An uploaded file: its [name] and what [read()] gives. *)
Record UploadedFile := {
  name : str;
  read : list N
}.

(** ** invoice_message.py *)

Module invoice_message.

Definition REQUIRED_COLUMNS : list str :=
  [py "invoice number"; py "phone number"; py "dealer name"; py "amount"].

(** [extract_invoice_number], lines 16-21. *)
Definition extract_invoice_number (filename : str) : option str :=
  match filename with
  | [] => None
  | _ =>
      let token := split_underscore_0 filename in
      or_None (strip token)
  end.

(** The value kept per invoice number: the dict with keys ["phone"],
    ["dealer"] and ["amount"]. *)
Record info := {
  phone : str;
  dealer : str;
  amount : str
}.

Section page.
Context (env : Env).

(** The media upload of [send_whatsapp_msg], lines 33-51. *)
Definition upload_request (invoice_no : str) (pdf_bytes : list N) : request :=
  let phone_number_id := py "905890485940579" in
  let upload_url :=
    py "https://graph.facebook.com/v22.0/" ++ phone_number_id ++ py "/media" in
  let upload_headers :=
    [(py "Authorization", py "Bearer " ++ fmt_opt (access_token env))] in
  let upload_data :=
    [(py "messaging_product", py "whatsapp"); (py "type", py "document")] in
  let upload_files :=
    (invoice_no ++ py ".pdf", pdf_bytes, py "application/pdf") in
  {| req_url := upload_url; req_headers := upload_headers;
     req_body := Multipart upload_data upload_files |}.

(** The template message of [send_whatsapp_msg], lines 63-114;
    [str(amount)] leaves a [str] as it is. *)
Definition message_request
    (phone customer_name invoice_no amount : str) (media_id : value)
  : request :=
  let phone_number_id := py "905890485940579" in
  let message_url :=
    py "https://graph.facebook.com/v22.0/" ++ phone_number_id
    ++ py "/messages" in
  let message_headers :=
    [(py "Content-Type", py "application/json");
     (py "Authorization", py "Bearer " ++ fmt_opt (access_token env))] in
  let payload :=
    dict [("messaging_product", VStr (py "whatsapp"));
          ("to", VStr (py "91" ++ phone));
          ("type", VStr (py "template"));
          ("template", dict [
             ("name", VStr (py "invoice_message"));
             ("language", dict [("code", VStr (py "en_IN"))]);
             ("components", VList [
                dict [("type", VStr (py "header"));
                      ("parameters", VList [
                         dict [("type", VStr (py "document"));
                               ("document", dict [
                                  ("id", media_id);
                                  ("filename", VStr (invoice_no ++ py ".pdf"))])]])];
                dict [("type", VStr (py "body"));
                      ("parameters", VList [
                         dict [("type", VStr (py "text"));
                               ("parameter_name", VStr (py "customer_name"));
                               ("text", VStr customer_name)];
                         dict [("type", VStr (py "text"));
                               ("parameter_name", VStr (py "invoice_number"));
                               ("text", VStr invoice_no)];
                         dict [("type", VStr (py "text"));
                               ("parameter_name", VStr (py "amount"));
                               ("text", VStr amount)]])]])])] in
  {| req_url := message_url; req_headers := message_headers;
     req_body := Json payload |}.

(** [send_whatsapp_msg], lines 25-120. *)
Definition send_whatsapp_msg
    (phone customer_name invoice_no amount : str) (pdf_bytes : list N)
  : M bool :=
  st_info (py "Uploading PDF for invoice " ++ invoice_no ++ py "...");;
  let* upload_resp := requests_post env (upload_request invoice_no pdf_bytes) in
  if negb (status_code upload_resp =? 200)%Z then
    st_error (py "Failed to upload PDF: " ++ text upload_resp);;
    ret false
  else
  let* media_id := lift (json_get upload_resp (py "id")) in
  if negb (truthy media_id) then
    st_error (py "No media ID returned: " ++ text upload_resp);;
    ret false
  else
  st_info (py "Sending WhatsApp message to " ++ phone ++ py " for invoice "
           ++ invoice_no ++ py "...");;
  let* resp :=
    requests_post env
      (message_request phone customer_name invoice_no amount media_id) in
  if negb (status_code resp =? 200)%Z then
    st_error (py "WhatsApp API error for " ++ phone ++ py ": " ++ text resp);;
    ret false
  else
  ret true.

(** [validate_data], lines 134-174. *)
Definition validate_data (df : DataFrame) (filenames : list str)
  : M (option (gmap str info)) :=
  if negb (issubset REQUIRED_COLUMNS df) then
    emit (StError (FKeys (py "Excel must have columns: ")
                     (list_to_set REQUIRED_COLUMNS)));;
    ret None
  else
  let df := foldl trim_column df REQUIRED_COLUMNS in
  let empty_mask :=
    (λ r, existsb (λ col, eq_empty (r col)) REQUIRED_COLUMNS) <$> rows df in
  if any empty_mask then
    emit (StWarning (FRows (py "Rows with missing values: ")
                       (index_where empty_mask 0)));;
    st_info (py "Fill all required fields and re-upload.");;
    ret None
  else
  let excel_invoices : gset str :=
    list_to_set ((λ row, at_col row (py "invoice number")) <$> rows df) in
  let file_invoices : gset str :=
    list_to_set (omap extract_invoice_number filenames) in
  let missing := excel_invoices ∖ file_invoices in
  if bool_decide (missing ≠ ∅) then
    emit (StWarning (FKeys (py "Invoice numbers in Excel but not in files: ")
                       missing));;
    st_info (py "Upload the missing invoice files and try again.");;
    ret None
  else
  let mapping : gmap str info :=
    foldl (λ m row,
             <[at_col row (py "invoice number") :=
                 {| phone := at_col row (py "phone number");
                    dealer := at_col row (py "dealer name");
                    amount := at_col row (py "amount") |}]> m)
          ∅ (rows df) in
  ret (Some mapping).

(** The body of the loop of [process_and_send], lines 182-201. *)
Definition process_file (mapping : gmap str info)
    (results : list (list (str * value))) (file_obj : UploadedFile)
  : M (list (list (str * value))) :=
  let fname := name file_obj in
  let inv := extract_invoice_number fname in
  let skipped :=
    ret (results ++ [dict_items [("file", VStr fname);
                                 ("invoice", of_opt inv);
                                 ("status", VStr (py "skipped"))]]) in
  match inv with
  | None => skipped
  | Some inv =>
      match truthy (VStr inv), mapping !! inv with
      | true, Some info =>
          let phone := phone info in
          let dealer := dealer info in
          let amount := amount info in
          let* status :=
            try_except
              (let pdf_bytes := read file_obj in
               let* ok := send_whatsapp_msg phone dealer inv amount pdf_bytes in
               ret (if ok : bool then py "sent" else py "failed"))
              (λ e, ret (py "error: " ++ exn_str e)) in
          ret (results ++ [dict_items [("file", VStr fname);
                                       ("invoice", VStr inv);
                                       ("phone", VStr phone);
                                       ("dealer", VStr dealer);
                                       ("status", VStr status)]])
      | _, _ => skipped
      end
  end.

(** [process_and_send], lines 177-202. *)
Definition process_and_send (mapping : gmap str info)
    (invoice_files : list UploadedFile) : M (list (list (str * value))) :=
  for_each (process_file mapping) invoice_files [].

(** [main] once the button is pressed and the table is loaded, lines
    222-239. *)
Definition main (df : DataFrame) (invoice_files : list UploadedFile)
  : M unit :=
  match invoice_files with
  | [] => st_error (py "Upload at least one invoice file.")
  | _ =>
      let filenames := name <$> invoice_files in
      let* mapping := validate_data df filenames in
      match mapping with
      | None => ret tt
      | Some mapping =>
          let* results := process_and_send mapping invoice_files in
          emit (StSuccess (FCount (py "Processed ") (length results)
                             (py " file(s).")));;
          emit (StDataframe results)
      end
  end.

End page.
End invoice_message.

(** ** welcome_new_user.py *)

Module welcome_new_user.

Definition REQUIRED_COLUMNS : list str := [py "phone number"].

Section page.
Context (env : Env).

(** The template message of [send_whatsapp_msg], lines 19-38. *)
Definition message_request (phone : str) : request :=
  let phone_number_id := py "905890485940579" in
  let message_url :=
    py "https://graph.facebook.com/v22.0/" ++ phone_number_id
    ++ py "/messages" in
  let message_headers :=
    [(py "Content-Type", py "application/json");
     (py "Authorization", py "Bearer " ++ fmt_opt (access_token env))] in
  let payload :=
    dict [("messaging_product", VStr (py "whatsapp"));
          ("to", VStr (py "91" ++ phone));
          ("type", VStr (py "template"));
          ("template", dict [
             ("name", VStr (py "welcome_new_user"));
             ("language", dict [("code", VStr (py "en"))])])] in
  {| req_url := message_url; req_headers := message_headers;
     req_body := Json payload |}.

(** [send_whatsapp_msg], lines 16-44. *)
Definition send_whatsapp_msg (phone : str) : M bool :=
  st_info (py "Sending welcome WhatsApp message to " ++ phone ++ py "...");;
  let* resp := requests_post env (message_request phone) in
  if negb (status_code resp =? 200)%Z then
    st_error (py "WhatsApp API error for " ++ phone ++ py ": " ++ text resp);;
    ret false
  else
  ret true.

(** [validate_data], lines 58-80. *)
Definition validate_data (df : DataFrame) : M (option (list str)) :=
  if negb (issubset REQUIRED_COLUMNS df) then
    st_error (py "Excel must have column: phone number");;
    ret None
  else
  let df := trim_column df (py "phone number") in
  let empty_mask := (λ r, eq_empty (r (py "phone number"))) <$> rows df in
  if any empty_mask then
    emit (StWarning (FRows (py "Rows with missing phone numbers: ")
                       (index_where empty_mask 0)));;
    st_info (py "Fill all phone numbers and re-upload.");;
    ret None
  else
  let phone_numbers :=
    unique ((λ row, at_col row (py "phone number")) <$> rows df) in
  ret (Some phone_numbers).

(** The body of the loop of [process_and_send], lines 88-94. *)
Definition process_phone (results : list (list (str * value))) (phone : str)
  : M (list (list (str * value))) :=
  let* status :=
    try_except
      (let* ok := send_whatsapp_msg phone in
       ret (if ok : bool then py "sent" else py "failed"))
      (λ e, ret (py "error: " ++ exn_str e)) in
  ret (results ++ [dict_items [("phone", VStr phone);
                               ("status", VStr status)]]).

(** [process_and_send], lines 83-96. *)
Definition process_and_send (phone_numbers : list str)
  : M (list (list (str * value))) :=
  for_each process_phone phone_numbers [].

(** [main] once the button is pressed and the table is loaded, lines
    120-130. *)
Definition main (df : DataFrame) : M unit :=
  let* phone_numbers := validate_data df in
  match phone_numbers with
  | None => ret tt
  | Some phone_numbers =>
      emit (StInfo (FCount (py "Found ") (length phone_numbers)
                      (py " phone number(s) to process.")));;
      let* results := process_and_send phone_numbers in
      emit (StSuccess (FCount (py "Processed ") (length results)
                         (py " phone number(s).")));;
      emit (StDataframe results)
  end.

End page.
End welcome_new_user.

(** ** msg_existing_user.py *)

Module msg_existing_user.

Definition REQUIRED_COLUMNS : list str :=
  [py "phone number"; py "dealer name"; py "dealer code"].

Section page.
Context (env : Env).

(** The template message of [send_whatsapp_msg], lines 18-51. *)
Definition message_request (phone dealer_name dealer_code : str) : request :=
  let message_url :=
    py "https://graph.facebook.com/v22.0/" ++ fmt_opt (PHONE_NUMBER_ID env)
    ++ py "/messages" in
  let message_headers :=
    [(py "Content-Type", py "application/json");
     (py "Authorization", py "Bearer " ++ fmt_opt (access_token env))] in
  let payload :=
    dict [("messaging_product", VStr (py "whatsapp"));
          ("to", VStr (py "91" ++ phone));
          ("type", VStr (py "template"));
          ("template", dict [
             ("name", VStr (py "welcome_existing_user"));
             ("language", dict [("code", VStr (py "en"))]);
             ("components", VList [
                dict [("type", VStr (py "body"));
                      ("parameters", VList [
                         dict [("type", VStr (py "text"));
                               ("parameter_name", VStr (py "dealer_name"));
                               ("text", VStr dealer_name)];
                         dict [("type", VStr (py "text"));
                               ("parameter_name", VStr (py "dealer_code"));
                               ("text", VStr dealer_code)]])]])])] in
  {| req_url := message_url; req_headers := message_headers;
     req_body := Json payload |}.

(** [send_whatsapp_msg], lines 15-57. *)
Definition send_whatsapp_msg (phone dealer_name dealer_code : str) : M bool :=
  let* resp :=
    requests_post env (message_request phone dealer_name dealer_code) in
  if negb (status_code resp =? 200)%Z then
    st_error (py "WhatsApp API error for " ++ phone ++ py ": " ++ text resp);;
    ret false
  else
  ret true.

(** [validate_data], lines 71-97. *)
Definition validate_data (df : DataFrame)
  : M (option (list str * list str * list str)) :=
  if negb (issubset REQUIRED_COLUMNS df) then
    st_error
      (py "Excel must have column: phone number, dealer name, dealer code");;
    ret None
  else
  let df := trim_column df (py "phone number") in
  let df := trim_column df (py "dealer name") in
  let df := trim_column df (py "dealer code") in
  let empty_mask :=
    (λ r, eq_empty (r (py "phone number")) || eq_empty (r (py "dealer name"))
          || eq_empty (r (py "dealer code"))) <$> rows df in
  if any empty_mask then
    emit (StWarning (FRows (py "Rows with missing phone numbers: ")
                       (index_where empty_mask 0)));;
    st_info (py "Fill all phone numbers and re-upload.");;
    ret None
  else
  let phone_numbers := (λ row, at_col row (py "phone number")) <$> rows df in
  let dealer_names := (λ row, at_col row (py "dealer name")) <$> rows df in
  let dealer_codes := (λ row, at_col row (py "dealer code")) <$> rows df in
  ret (Some (phone_numbers, dealer_names, dealer_codes)).

(** The body of the loop of [process_and_send], lines 105-111. *)
Definition process_row (results : list (list (str * value)))
    (item : str * (str * str)) : M (list (list (str * value))) :=
  let '(phone, (dealer_name, dealer_code)) := item in
  let* status :=
    try_except
      (let* ok := send_whatsapp_msg phone dealer_name dealer_code in
       ret (if ok : bool then py "sent" else py "failed"))
      (λ e, ret (py "error: " ++ exn_str e)) in
  ret (results ++ [dict_items [("phone", VStr phone);
                               ("status", VStr status)]]).

(** [process_and_send], lines 100-113; [zip] stops at the shortest
    list. *)
Definition process_and_send
    (phone_numbers dealer_names dealer_codes : list str)
  : M (list (list (str * value))) :=
  for_each process_row
    (zip phone_numbers (zip dealer_names dealer_codes)) [].

(** [main] once the button is pressed and the table is loaded, lines
    137-149. *)
Definition main (df : DataFrame) : M unit :=
  let* data := validate_data df in
  match data with
  | None => ret tt
  | Some (phone_numbers, dealer_names, dealer_codes) =>
      emit (StInfo (FCount (py "Found ") (length phone_numbers)
                      (py " phone number(s) to process.")));;
      let* results :=
        process_and_send phone_numbers dealer_names dealer_codes in
      emit (StSuccess (FCount (py "Processed ") (length results)
                         (py " phone number(s).")));;
      emit (StDataframe results)
  end.

End page.
End msg_existing_user.

(** ** The words of the specification *)

(** [p] is the prefix of [f] before its first ["_"] (all of [f] when it
    has none). *)
Definition before_first_underscore (f p : str) : Prop :=
  (underscore ∉ p) ∧ (f = p ∨ ∃ rest, f = p ++ underscore :: rest).

(** Empty or made of whitespace only. *)
Definition whitespace_only (s : str) : Prop :=
  Forall (λ c, is_space c = true) s.

(** [k] is [p] without its leading and trailing whitespace. *)
Definition trimmed_of (p k : str) : Prop :=
  ∃ l r, p = l ++ k ++ r ∧ whitespace_only l ∧ whitespace_only r
         ∧ (∀ c, head k = Some c → is_space c = false)
         ∧ (∀ c, last k = Some c → is_space c = false).

(** A row with a required cell whose text is empty after trimming.  A
    blank cell has the text ["nan"] and is not such a cell. *)
Definition incomplete (required : list str) (r : str → cell) : Prop :=
  Exists (λ col, whitespace_only (astype_str (r col))) required.

(** [r'] is the row [r] once the columns [cols] are made text and
    trimmed. *)
Definition row_trimmed (cols : list str) (r r' : str → cell) : Prop :=
  ∀ c, r' c = if bool_decide (c ∈ cols)
              then CStr (strip (astype_str (r c))) else r c.

(** [mask] marks the incomplete rows. *)
Definition marks_incomplete (required : list str)
    (rows : list (str → cell)) (mask : list bool) : Prop :=
  Forall2 (λ r b, b = true ↔ incomplete required r) rows mask.

#[global] Instance whitespace_only_dec s : Decision (whitespace_only s) :=
  Forall_dec _ s.

#[global] Instance incomplete_dec required r :
  Decision (incomplete required r) := Exists_dec _ required.

(** A blank cell, and a row whose required cells are all filled. *)
Definition is_blank (c : cell) : bool :=
  match c with CNaN => true | _ => false end.

Definition no_blank_cell (required : list str) (r : str → cell) : Prop :=
  Forall (λ col, is_blank (r col) = false) required.

#[global] Instance no_blank_cell_dec required r :
  Decision (no_blank_cell required r) := Forall_dec _ required.

(** The text of a cell, trimmed. *)
Definition trimmed_cell (col : str) (r : str → cell) : str :=
  strip (astype_str (r col)).

(** The requests to the two endpoints of the provider. *)
Definition is_media_upload (r : request) : Prop :=
  py "/media" `suffix_of` req_url r.

Definition is_message_send (r : request) : Prop :=
  py "/messages" `suffix_of` req_url r.

(** The status a result row records. *)
Definition status_of (row : list (str * value)) : option value :=
  items_get row (py "status").

(** The media identifier [v] the body of an upload response carries. *)
Definition has_media_identifier (r : response) (v : value) : Prop :=
  ∃ items, json r = Ok (VDict items)
           ∧ items_get items (py "id") = Some v ∧ truthy v = true.

(** The body of an upload response is a JSON object without a (truthy)
    ["id"]: the case the code tests with [not media_id].  A body that is
    empty, not JSON or not an object carries no identifier either; it is
    [undecodable] below. *)
Definition lacks_media_identifier (r : response) : Prop :=
  ∃ items, json r = Ok (VDict items)
           ∧ (items_get items (py "id") = None
              ∨ ∃ v, items_get items (py "id") = Some v ∧ truthy v = false).

(** Decoding the body of an upload response raises [e]: the body is not
    JSON, or not a JSON object. *)
Definition undecodable (r : response) (e : exn) : Prop :=
  json r = Raised e
  ∨ ∃ v, json r = Ok v ∧ (∀ items, v ≠ VDict items)
         ∧ e = Exception (py "'" ++ type_name v
                          ++ py "' object has no attribute 'get'").

(** The status recorded for a message whose send got [reply]: read off
    the HTTP status code, or off the exception raised. *)
Definition classifies (status : str) (reply : result response) : Prop :=
  (status = py "sent" ↔ ∃ r, reply = Ok r ∧ status_code r = 200%Z)
  ∧ (status = py "failed" ↔ ∃ r, reply = Ok r ∧ status_code r ≠ 200%Z)
  ∧ (∀ msg, status = py "error: " ++ msg ↔
            ∃ e, reply = Raised e ∧ exn_str e = msg).

(** A loop body that always adds one row to the results, whatever they
    are, and never raises. *)
Definition appends {A B} (body : list B → A → M (list B)) : Prop :=
  ∀ x tr, ∃ d evs, ∀ s, body s x tr = (Ok (s ++ [d]), tr ++ evs).

(** A loop body that, at each pass, adds one row and makes the one
    request [f x]. *)
Definition one_request {A B} (body : list B → A → M (list B))
    (f : A → request) : Prop :=
  ∀ x tr, ∃ d evs, (∀ s, body s x tr = (Ok (s ++ [d]), tr ++ evs))
                   ∧ http_calls evs = [f x].

(** The request a row of the existing-user table leads to. *)
Definition row_request (env : Env) (item : str * (str * str)) : request :=
  msg_existing_user.message_request env item.1 item.2.1 item.2.2.

Module invoice_spec.
Import invoice_message.

(** The correlation key and the attributes of a roster row: its required
    cells, as text, trimmed. *)
Definition key_of (r : str → cell) : str :=
  strip (astype_str (r (py "invoice number"))).

Definition info_of (r : str → cell) : info :=
  {| phone := strip (astype_str (r (py "phone number")));
     dealer := strip (astype_str (r (py "dealer name")));
     amount := strip (astype_str (r (py "amount"))) |}.

(** The result rows of [process_and_send]. *)
Definition skipped_result (doc : UploadedFile) : list (str * value) :=
  dict_items [("file", VStr (name doc));
              ("invoice", of_opt (extract_invoice_number (name doc)));
              ("status", VStr (py "skipped"))].

Definition attempted_result (doc : UploadedFile) (inv : str) (i : info)
    (status : str) : list (str * value) :=
  dict_items [("file", VStr (name doc));
              ("invoice", VStr inv);
              ("phone", VStr (phone i));
              ("dealer", VStr (dealer i));
              ("status", VStr status)].

End invoice_spec.

(** The result row of the two welcome pages. *)
Definition welcome_result (phone status : str) : list (str * value) :=
  dict_items [("phone", VStr phone); ("status", VStr status)].


(** [idx] lists, in increasing order, the indices of the incomplete
    rows of the table. *)
Definition incomplete_row_indices (required : list str) (df : DataFrame)
    (idx : list nat) : Prop :=
  StronglySorted lt idx
  ∧ ∀ i, i ∈ idx ↔ ∃ r, rows df !! i = Some r ∧ incomplete required r.

(** ** Sample data *)

(** A row given by its cells; other columns are blank. *)
Fixpoint row_of (l : list (string * cell)) (col : str) : cell :=
  match l with
  | [] => CNaN
  | (k, c) :: l' => if bool_decide (py k = col) then c else row_of l' col
  end.

Module sample.

Definition accepted : response :=
  {| status_code := 200; text := py "accepted";
     json := Ok (dict [("id", VStr (py "M1"))]) |}.

Definition rejected : response :=
  {| status_code := 500; text := py "server error";
     json := Raised (Exception (py "Expecting value")) |}.

(** A provider that accepts everything, and one that rejects
    everything. *)
Definition env_up : Env :=
  {| access_token := Some (py "token"); PHONE_NUMBER_ID := Some (py "42");
     provider := λ _ _, Ok accepted |}.

Definition env_down : Env :=
  {| access_token := Some (py "token"); PHONE_NUMBER_ID := Some (py "42");
     provider := λ _ _, Ok rejected |}.

Definition acme : invoice_message.info :=
  {| invoice_message.phone := py "9999999999";
     invoice_message.dealer := py "Acme";
     invoice_message.amount := py "500" |}.

Definition acme_mapping : gmap str invoice_message.info :=
  {[ py "INV100" := acme ]}.

Definition inv100_pdf : UploadedFile :=
  {| name := py "INV100_copy.pdf"; read := [37; 80; 68; 70]%N |}.

Definition inv200_pdf : UploadedFile :=
  {| name := py "INV200_copy.pdf"; read := [37; 80; 68; 70]%N |}.

Definition nameless_pdf : UploadedFile :=
  {| name := py "_copy.pdf"; read := [37; 80; 68; 70]%N |}.

(** The roster of the end-to-end scenario. *)
Definition roster : DataFrame :=
  {| columns := invoice_message.REQUIRED_COLUMNS ++ [py "remarks"];
     rows := [row_of [("invoice number", CStr (py " INV100 "));
                      ("phone number", COther (py "9999999999"));
                      ("dealer name", CStr (py "Acme"));
                      ("amount", COther (py "500"))]] |}.

(** The same roster, the phone number left as a blank string. *)
Definition roster_no_phone : DataFrame :=
  {| columns := invoice_message.REQUIRED_COLUMNS;
     rows := [row_of [("invoice number", CStr (py "INV100"));
                      ("phone number", CStr (py "  "));
                      ("dealer name", CStr (py "Acme"));
                      ("amount", COther (py "500"))]] |}.

(** Two rows for one invoice number. *)
Definition roster_twice : DataFrame :=
  {| columns := invoice_message.REQUIRED_COLUMNS;
     rows := [row_of [("invoice number", CStr (py "INV100"));
                      ("phone number", COther (py "1111111111"));
                      ("dealer name", CStr (py "Old"));
                      ("amount", COther (py "1"))];
              row_of [("invoice number", CStr (py "INV100 "));
                      ("phone number", COther (py "9999999999"));
                      ("dealer name", CStr (py "Acme"));
                      ("amount", COther (py "500"))]] |}.

(** A welcome list where a phone number comes twice. *)
Definition dealers : DataFrame :=
  {| columns := msg_existing_user.REQUIRED_COLUMNS;
     rows := [row_of [("phone number", COther (py "9999999999"));
                      ("dealer name", CStr (py "Acme"));
                      ("dealer code", CStr (py "D1"))];
              row_of [("phone number", CStr (py "9999999999 "));
                      ("dealer name", CStr (py "Acme West"));
                      ("dealer code", CStr (py "D2"))]] |}.

(** The same list with a blank dealer code in the second row. *)
Definition dealers_blank : DataFrame :=
  {| columns := msg_existing_user.REQUIRED_COLUMNS;
     rows := [row_of [("phone number", COther (py "9999999999"));
                      ("dealer name", CStr (py "Acme"));
                      ("dealer code", CStr (py "D1"))];
              row_of [("phone number", CStr (py "8888888888"));
                      ("dealer name", CStr (py "Acme West"));
                      ("dealer code", CStr (py " "))]] |}.

(** A provider that answers 200 with a page that is not JSON. *)
Definition not_json : response :=
  {| status_code := 200; text := py "<html>maintenance</html>";
     json := Raised (Exception (py "Expecting value")) |}.

Definition env_html : Env :=
  {| access_token := Some (py "token"); PHONE_NUMBER_ID := Some (py "42");
     provider := λ _ _, Ok not_json |}.

(** The roster with the phone cell left blank in the sheet, and a list of
    phone numbers with a blank cell in its second row. *)
Definition roster_blank_phone : DataFrame :=
  {| columns := invoice_message.REQUIRED_COLUMNS;
     rows := [row_of [("invoice number", CStr (py "INV100"));
                      ("phone number", CNaN);
                      ("dealer name", CStr (py "Acme"));
                      ("amount", COther (py "500"))]] |}.

Definition phones_blank : DataFrame :=
  {| columns := welcome_new_user.REQUIRED_COLUMNS;
     rows := [row_of [("phone number", COther (py "9999999999.0"))];
              row_of [("phone number", CNaN)]] |}.

End sample.

(** ** More words, for the properties beyond the claims *)

(** A string that is not empty and has no whitespace at either end: what
    trimming leaves of a cell that is not blank. *)
Definition clean (s : str) : Prop :=
  s ≠ [] ∧ (∀ c, head s = Some c → is_space c = false)
  ∧ (∀ c, last s = Some c → is_space c = false).

(** The file a result row of the invoice page is about, and the phone
    number a result row of the welcome pages is about. *)
Definition file_of (row : list (str * value)) : option value :=
  items_get row (py "file").

Definition phone_of (row : list (str * value)) : option value :=
  items_get row (py "phone").

(** The passes of a loop over [l] from the trace [tr]: pass by pass, the
    row added and the events made, each pass starting from the trace the
    earlier ones left. *)
Inductive passes {A B} (P : A → list event → B → list event → Prop)
  : list A → list event → list B → list event → Prop :=
| passes_nil tr : passes P [] tr [] []
| passes_cons x l tr d evs ds evs' :
    P x tr d evs →
    passes P l (tr ++ evs) ds evs' →
    passes P (x :: l) tr (d :: ds) (evs ++ evs').

(** A loop body whose every pass adds one row and satisfies [P]. *)
Definition pass_spec {A B} (body : list B → A → M (list B))
    (P : A → list event → B → list event → Prop) : Prop :=
  ∀ x tr, ∃ d evs, P x tr d evs
                   ∧ ∀ s, body s x tr = (Ok (s ++ [d]), tr ++ evs).

Module invoice_pass.
Import invoice_message invoice_spec.

(** What one pass of [process_and_send] does with a document: it is
    skipped without a request; or it is attempted, with the upload as
    the first request and, only after an upload answered 200 with a media
    identifier, the message that carries that identifier as the second
    and last. *)
Definition document_pass (env : Env) (mapping : gmap str info)
    (doc : UploadedFile) (tr : list event) (row : list (str * value))
    (evs : list event) : Prop :=
  (row = skipped_result doc ∧ evs = []
   ∧ ∀ inv, extract_invoice_number (name doc) = Some inv →
            mapping !! inv = None)
  ∨ ∃ inv i status,
      extract_invoice_number (name doc) = Some inv
      ∧ mapping !! inv = Some i
      ∧ row = attempted_result doc inv i status
      ∧ status ≠ py "skipped"
      ∧ let up := upload_request env inv (read doc) in
        (http_calls evs = [up] ∧ status ≠ py "sent")
        ∨ ∃ r1 id,
            provider env (http_calls tr) up = Ok r1
            ∧ status_code r1 = 200%Z
            ∧ has_media_identifier r1 id
            ∧ http_calls evs
              = [up; message_request env (phone i) (dealer i) inv (amount i)
                       id].

End invoice_pass.

(** ** Proof steps *)

(** Runs the Streamlit calls of an early return: the messages are
    appended to the trace, one after the other. *)
Ltac run_emits :=
  unfold st_info, st_error, bind, emit, ret;
  rewrite <- ?app_assoc; try done.

(** Finds an event in a trace given by its events, and shows that an
    event of another kind is not in it. *)
Ltac find_event :=
  repeat first [apply list_elem_of_here | apply list_elem_of_further].

Ltac the_event H :=
  repeat (apply elem_of_cons in H as [H|H]; [try discriminate H|]);
  try (by apply elem_of_nil in H).

Ltac no_event H :=
  repeat (apply elem_of_cons in H as [H|H]; [discriminate H|]);
  by apply elem_of_nil in H.

(** ** Strings: splitting and stripping *)

Section strings.
Implicit Types (s p k : str) (c : char).

Lemma split_underscore_0_spec s :
  before_first_underscore s (split_underscore_0 s).
Proof.
  induction s as [|c s [IHnot IHeq]]; simpl.
  - split; [apply not_elem_of_nil | by left].
  - destruct (N.eqb_spec c underscore) as [->|Hne].
    + split; [apply not_elem_of_nil | right; by exists s].
    + split.
      * rewrite elem_of_cons. intros [?|?]; [congruence | done].
      * destruct IHeq as [Heq | [rest Heq]].
        -- left. by rewrite <- Heq.
        -- right. exists rest. by rewrite Heq at 1.
Qed.

Lemma split_underscore_0_unique s p :
  before_first_underscore s p → split_underscore_0 s = p.
Proof.
  intros [Hnot Heq]. revert s Heq.
  induction p as [|c p IH]; intros s Heq.
  - destruct Heq as [-> | [rest ->]]; [done|].
    done.
  - apply not_elem_of_cons in Hnot as [Hc Hp].
    assert (Hcb : (c =? underscore)%N = false) by (apply N.eqb_neq; congruence).
    destruct Heq as [-> | [rest ->]]; simpl; rewrite Hcb; f_equal.
    + apply IH; [done | by left].
    + apply IH; [done | right; by exists rest].
Qed.

Lemma split_underscore_0_id s :
  underscore ∉ s → split_underscore_0 s = s.
Proof. intros H. apply split_underscore_0_unique. split; [done | by left]. Qed.

Lemma lstrip_spec s :
  ∃ l, s = l ++ lstrip s ∧ whitespace_only l
       ∧ ∀ c, head (lstrip s) = Some c → is_space c = false.
Proof.
  induction s as [|c s (l & Heq & Hl & Hhd)]; simpl.
  - exists []. repeat split; [constructor | done].
  - destruct (is_space c) eqn:Hc.
    + exists (c :: l). repeat split; [by rewrite Heq at 1 | by constructor | done].
    + exists []. repeat split; [constructor | simpl; congruence].
Qed.

Lemma lstrip_whitespace s : whitespace_only s → lstrip s = [].
Proof. induction 1 as [|c s Hc _ IH]; simpl; [done | by rewrite Hc]. Qed.

Lemma lstrip_app_nonspace s c s' :
  is_space c = false → lstrip (s ++ c :: s') = lstrip s ++ c :: s'.
Proof.
  intros Hc. induction s as [|a s IH]; simpl.
  - by rewrite Hc.
  - by destruct (is_space a).
Qed.

Lemma rstrip_spec s :
  ∃ r, s = rstrip s ++ r ∧ whitespace_only r
       ∧ ∀ c, last (rstrip s) = Some c → is_space c = false.
Proof.
  unfold rstrip. destruct (lstrip_spec (reverse s)) as (l & Heq & Hl & Hhd).
  exists (reverse l). repeat split.
  - rewrite <- reverse_app, <- Heq. by rewrite reverse_involutive.
  - unfold whitespace_only. by rewrite Forall_reverse.
  - intros c. rewrite last_reverse. apply Hhd.
Qed.

Lemma strip_spec s : trimmed_of s (strip s).
Proof.
  unfold strip.
  destruct (lstrip_spec s) as (l & Heq & Hl & Hhd).
  destruct (rstrip_spec (lstrip s)) as (r & Heq' & Hr & Hlast).
  exists l, r. repeat split; [by rewrite <- Heq' | done | done | | done].
  intros c Hc. apply Hhd. rewrite Heq'.
  destruct (rstrip (lstrip s)); simplify_eq/=; done.
Qed.

Lemma trimmed_of_unique p k : trimmed_of p k → strip p = k.
Proof.
  intros (l & r & -> & Hl & Hr & Hhd & Hlast). unfold strip.
  destruct k as [|c k].
  - simpl. rewrite lstrip_whitespace.
    + done.
    + by apply Forall_app.
  - simpl. rewrite lstrip_app_nonspace by (by apply Hhd).
    rewrite (lstrip_whitespace l Hl). simpl.
    unfold rstrip.
    destruct (exists_last (l := c :: k)) as (k0 & d & Hk); [done|].
    change (c :: k ++ r) with ((c :: k) ++ r). rewrite Hk in Hlast |- *.
    rewrite reverse_app, reverse_snoc. simpl.
    rewrite lstrip_app_nonspace by (apply Hlast; by rewrite last_snoc).
    rewrite lstrip_whitespace by (unfold whitespace_only; by rewrite Forall_reverse).
    simpl. rewrite <- reverse_snoc. by rewrite reverse_involutive.
Qed.

Lemma strip_whitespace s : whitespace_only s → strip s = [].
Proof. intros H. unfold strip. by rewrite lstrip_whitespace. Qed.

Lemma strip_nil_inv s : strip s = [] → whitespace_only s.
Proof.
  intros H. destruct (strip_spec s) as (l & r & Heq & Hl & Hr & _).
  rewrite H in Heq. rewrite Heq. by apply Forall_app.
Qed.

Lemma strip_idemp s : strip (strip s) = strip s.
Proof.
  apply trimmed_of_unique.
  destruct (strip_spec s) as (l & r & _ & _ & _ & Hhd & Hlast).
  exists [], []. rewrite app_nil_r. repeat split; (done || constructor).
Qed.

Lemma strip_subseteq s c : c ∈ strip s → c ∈ s.
Proof.
  intros H. destruct (strip_spec s) as (l & r & Heq & _).
  rewrite Heq. set_solver.
Qed.

End strings.

(** ** The correlation key of a filename *)

Section extract_invoice_number.
Import invoice_message.
Implicit Types (f p k : str).

Lemma extract_invoice_number_eq f :
  extract_invoice_number f = or_None (strip (split_underscore_0 f)).
Proof. by destruct f. Qed.

Lemma or_None_Some s k : or_None s = Some k ↔ s = k ∧ k ≠ [].
Proof.
  destruct s as [|c s]; simpl; split.
  - done.
  - by intros [<- ?].
  - by intros [= <-].
  - by intros [-> _].
Qed.

Lemma or_None_None s : or_None s = None ↔ s = [].
Proof. by destruct s. Qed.

Lemma extract_invoice_number_None f :
  extract_invoice_number f = None ↔ whitespace_only (split_underscore_0 f).
Proof.
  rewrite extract_invoice_number_eq, or_None_None. split.
  - apply strip_nil_inv.
  - apply strip_whitespace.
Qed.

Lemma extract_invoice_number_Some f k :
  extract_invoice_number f = Some k ↔
  k ≠ [] ∧ trimmed_of (split_underscore_0 f) k.
Proof.
  rewrite extract_invoice_number_eq, or_None_Some. split.
  - intros [<- Hne]. split; [done | apply strip_spec].
  - intros [Hne Htr]. split; [by apply trimmed_of_unique | done].
Qed.

Lemma extract_invoice_number_no_underscore f k :
  extract_invoice_number f = Some k → underscore ∉ k.
Proof.
  rewrite extract_invoice_number_eq, or_None_Some. intros [<- _] Hin.
  apply strip_subseteq in Hin.
  by destruct (split_underscore_0_spec f) as [Hnot _].
Qed.

Lemma extract_invoice_number_fixed f k :
  extract_invoice_number f = Some k → extract_invoice_number k = Some k.
Proof.
  intros H. pose proof (extract_invoice_number_no_underscore _ _ H) as Hnot.
  revert H. rewrite !extract_invoice_number_eq, !or_None_Some.
  intros [<- Hne]. split; [|done].
  rewrite split_underscore_0_id by done. apply strip_idemp.
Qed.

End extract_invoice_number.

(** ** Computations and loops *)

Section loops.
Context {A B : Type}.
Implicit Types (body : list B → A → M (list B)) (l : list A).

Lemma http_calls_app (tr tr' : list event) :
  http_calls (tr ++ tr') = http_calls tr ++ http_calls tr'.
Proof. apply omap_app. Qed.

Lemma for_each_appends body l tr :
  appends body →
  ∃ ds evs, length ds = length l
            ∧ ∀ s, for_each body l s tr = (Ok (s ++ ds), tr ++ evs).
Proof.
  intros Hbody. revert tr. induction l as [|x l IH]; intros tr.
  - exists [], []. split; [done|]. intros s. simpl. unfold ret.
    by rewrite !app_nil_r.
  - destruct (Hbody x tr) as (d & evs & Hx).
    destruct (IH (tr ++ evs)) as (ds & evs' & Hlen & Hl).
    exists (d :: ds), (evs ++ evs'). split; [simpl; by rewrite Hlen|].
    intros s. simpl. unfold bind. rewrite Hx, Hl.
    by rewrite <- !app_assoc.
Qed.

Lemma for_each_app body l1 l2 tr rs1 tr1 rs2 tr2 :
  appends body →
  for_each body l1 [] tr = (Ok rs1, tr1) →
  for_each body l2 [] tr1 = (Ok rs2, tr2) →
  for_each body (l1 ++ l2) [] tr = (Ok (rs1 ++ rs2), tr2).
Proof.
  intros Hbody. revert tr rs1 tr1.
  assert (Hgen : ∀ l1 s tr s1 tr1,
    for_each body l1 s tr = (Ok s1, tr1) →
    for_each body l2 [] tr1 = (Ok rs2, tr2) →
    for_each body (l1 ++ l2) s tr = (Ok (s1 ++ rs2), tr2)).
  { clear l1. induction l1 as [|x l1 IH]; intros s tr s1 tr1 H1 H2.
    - simpl in *. unfold ret in H1. simplify_eq.
      destruct (for_each_appends body l2 tr1 Hbody) as (ds & evs & _ & Hl).
      rewrite Hl in H2 |- *. by simplify_eq/=.
    - simpl in *. unfold bind in *.
      destruct (Hbody x tr) as (d & evs & Hx). rewrite Hx in H1 |- *.
      by eapply IH. }
  intros tr rs1 tr1. apply Hgen.
Qed.

End loops.

(** ** invoice_message.py: sending one invoice *)

Section invoice_send.
Import invoice_message invoice_spec.
Context (env : Env).
Implicit Types (tr : list event) (doc : UploadedFile).

(** The run of [send_whatsapp_msg], by the answers of the provider. *)
Lemma send_whatsapp_msg_run phone customer_name inv amount pdf_bytes tr :
  send_whatsapp_msg env phone customer_name inv amount pdf_bytes tr =
  let h := http_calls tr in
  let up := upload_request env inv pdf_bytes in
  let tr1 :=
    tr ++ [StInfo (FText (py "Uploading PDF for invoice " ++ inv ++ py "..."));
           Http up] in
  match provider env h up with
  | Raised e => (Raised e, tr1)
  | Ok r1 =>
      if negb (status_code r1 =? 200)%Z then
        (Ok false,
         tr1 ++ [StError (FText (py "Failed to upload PDF: " ++ text r1))])
      else
        match json_get r1 (py "id") with
        | Raised e => (Raised e, tr1)
        | Ok media_id =>
            if negb (truthy media_id) then
              (Ok false,
               tr1 ++ [StError (FText (py "No media ID returned: "
                                       ++ text r1))])
            else
              let msg :=
                message_request env phone customer_name inv amount media_id in
              let tr2 :=
                tr1 ++ [StInfo (FText (py "Sending WhatsApp message to "
                                       ++ phone ++ py " for invoice "
                                       ++ inv ++ py "..."));
                        Http msg] in
              match provider env (h ++ [up]) msg with
              | Raised e => (Raised e, tr2)
              | Ok r2 =>
                  if negb (status_code r2 =? 200)%Z then
                    (Ok false,
                     tr2 ++ [StError (FText (py "WhatsApp API error for "
                                             ++ phone ++ py ": " ++ text r2))])
                  else (Ok true, tr2)
              end
        end
  end.
Proof.
  unfold send_whatsapp_msg, bind, st_info, st_error, emit, requests_post, ret.
  cbv zeta. rewrite !http_calls_app. cbn [http_calls omap list_omap app].
  rewrite !app_nil_r, <- !app_assoc. cbn [app].
  destruct (provider env _ _) as [r1|e]; [|done].
  destruct (negb (status_code r1 =? 200)%Z); [done|].
  unfold lift. destruct (json_get r1 _) as [media_id|e]; [|done].
  unfold ret. destruct (negb (truthy media_id)); [done|].
  rewrite !http_calls_app. cbn [http_calls omap list_omap app].
  rewrite !app_nil_r, <- !app_assoc. cbn [app].
  destruct (provider env _ _) as [r2|e]; [|done].
  by destruct (negb (status_code r2 =? 200)%Z).
Qed.

Lemma send_whatsapp_msg_extends phone customer_name inv amount pdf_bytes tr :
  ∃ res evs,
    send_whatsapp_msg env phone customer_name inv amount pdf_bytes tr
    = (res, tr ++ evs).
Proof.
  rewrite send_whatsapp_msg_run. cbv zeta.
  destruct (provider env _ _) as [r1|e]; [|by eauto].
  destruct (negb _); [rewrite <- app_assoc; by eauto|].
  destruct (json_get _ _) as [media_id|e]; [|by eauto].
  destruct (negb _); [rewrite <- app_assoc; by eauto|].
  destruct (provider env _ _) as [r2|e]; [|rewrite <- app_assoc; by eauto].
  destruct (negb _); rewrite <- ?app_assoc; by eauto.
Qed.

(** A document without a usable key, or with a key the mapping does not
    have, is skipped: nothing is sent, nothing is shown. *)
Lemma process_file_skipped mapping results doc tr :
  (∀ inv, extract_invoice_number (name doc) = Some inv → mapping !! inv = None) →
  process_file env mapping results doc tr
  = (Ok (results ++ [skipped_result doc]), tr).
Proof.
  intros Hno. unfold process_file, skipped_result. cbv zeta.
  destruct (extract_invoice_number (name doc)) as [inv|] eqn:Hinv; [|done].
  rewrite (Hno inv eq_refl). by destruct (truthy (VStr inv)).
Qed.

(** A document whose key is in the mapping is attempted, and whatever the
    attempt does, a row is recorded. *)
Lemma process_file_attempted mapping results doc inv i tr :
  extract_invoice_number (name doc) = Some inv →
  mapping !! inv = Some i →
  process_file env mapping results doc tr =
  match send_whatsapp_msg env (phone i) (dealer i) inv (amount i) (read doc) tr
  with
  | (Ok ok, tr') =>
      (Ok (results ++ [attempted_result doc inv i
                         (if ok : bool then py "sent" else py "failed")]), tr')
  | (Raised e, tr') =>
      (Ok (results ++ [attempted_result doc inv i (py "error: " ++ exn_str e)]),
       tr')
  end.
Proof.
  intros Hinv Hi. unfold process_file, attempted_result. cbv zeta.
  rewrite Hinv, Hi.
  rewrite extract_invoice_number_eq in Hinv.
  apply or_None_Some in Hinv as [_ Hne].
  destruct inv as [|c inv]; [done|]. cbn [truthy].
  unfold bind, try_except, ret.
  by destruct (send_whatsapp_msg _ _ _ _ _ _ _) as [[ok|e] tr'].
Qed.

Lemma process_file_appends mapping : appends (process_file env mapping).
Proof.
  intros doc tr.
  destruct (extract_invoice_number (name doc)) as [inv|] eqn:Hinv.
  - destruct (mapping !! inv) as [i|] eqn:Hi.
    + destruct (send_whatsapp_msg_extends (phone i) (dealer i) inv (amount i)
                  (read doc) tr) as ([ok|e] & evs & Hrun).
      * eexists _, evs. intros s.
        rewrite (process_file_attempted _ _ _ _ _ _ Hinv Hi), Hrun. done.
      * eexists _, evs. intros s.
        rewrite (process_file_attempted _ _ _ _ _ _ Hinv Hi), Hrun. done.
    + exists (skipped_result doc), []. intros s. rewrite app_nil_r.
      apply process_file_skipped. intros inv' Hinv'. congruence.
  - exists (skipped_result doc), []. intros s. rewrite app_nil_r.
    apply process_file_skipped. intros inv' Hinv'. congruence.
Qed.

End invoice_send.

(** ** Statuses *)

Lemma status_sent_failed : py "sent" ≠ py "failed".
Proof. discriminate. Qed.

Lemma status_sent_error msg : py "sent" ≠ py "error: " ++ msg.
Proof. discriminate. Qed.

Lemma status_failed_error msg : py "failed" ≠ py "error: " ++ msg.
Proof. discriminate. Qed.

Lemma classifies_sent r : status_code r = 200%Z → classifies (py "sent") (Ok r).
Proof.
  intros Hr. repeat split.
  - by exists r.
  - by intros ?%status_sent_failed.
  - intros (r' & [= <-] & Hne). by destruct Hne.
  - by intros ?%status_sent_error.
  - by intros (e & [=] & _).
Qed.

Lemma classifies_failed r :
  status_code r ≠ 200%Z → classifies (py "failed") (Ok r).
Proof.
  intros Hr. repeat split.
  - intros H. symmetry in H. by apply status_sent_failed in H.
  - intros (r' & [= <-] & Heq). by destruct Hr.
  - by exists r.
  - by intros ?%status_failed_error.
  - by intros (e & [=] & _).
Qed.

Lemma classifies_error e : classifies (py "error: " ++ exn_str e) (Raised e).
Proof.
  repeat split.
  - intros H. symmetry in H. by apply status_sent_error in H.
  - by intros (r & [=] & _).
  - intros H. symmetry in H. by apply status_failed_error in H.
  - by intros (r & [=] & _).
  - intros Heq. exists e. split; [done|]. by apply app_inv_head in Heq.
  - by intros (e' & [= <-] & <-).
Qed.

(** ** Loops that send one message per item *)

Section one_request_per_item.
Context {A B : Type}.
Implicit Types (body : list B → A → M (list B)) (f : A → request).

Lemma one_request_appends body f : one_request body f → appends body.
Proof. intros H x tr. destruct (H x tr) as (d & evs & Hd & _). eauto. Qed.

Lemma for_each_one_request body f l tr :
  one_request body f →
  ∃ ds evs, (∀ s, for_each body l s tr = (Ok (s ++ ds), tr ++ evs))
            ∧ length ds = length l
            ∧ http_calls evs = f <$> l.
Proof.
  intros Hbody. revert tr. induction l as [|x l IH]; intros tr.
  - exists [], []. repeat split. intros s. simpl. unfold ret.
    by rewrite !app_nil_r.
  - destruct (Hbody x tr) as (d & evs & Hx & Hcall).
    destruct (IH (tr ++ evs)) as (ds & evs' & Hl & Hlen & Hcalls).
    exists (d :: ds), (evs ++ evs'). repeat split.
    + intros s. simpl. unfold bind. rewrite Hx, Hl. by rewrite <- !app_assoc.
    + simpl. by rewrite Hlen.
    + rewrite http_calls_app, Hcall, Hcalls. done.
Qed.

End one_request_per_item.

(** ** welcome_new_user.py: sending one welcome *)

Section new_user_send.
Import welcome_new_user.
Context (env : Env).

Lemma new_user_send_run phone tr :
  send_whatsapp_msg env phone tr =
  let msg := message_request env phone in
  let tr1 :=
    tr ++ [StInfo (FText (py "Sending welcome WhatsApp message to "
                          ++ phone ++ py "..."));
           Http msg] in
  match provider env (http_calls tr) msg with
  | Raised e => (Raised e, tr1)
  | Ok r =>
      if negb (status_code r =? 200)%Z then
        (Ok false,
         tr1 ++ [StError (FText (py "WhatsApp API error for " ++ phone
                                 ++ py ": " ++ text r))])
      else (Ok true, tr1)
  end.
Proof.
  unfold send_whatsapp_msg, bind, st_info, st_error, emit, requests_post, ret.
  cbv zeta. rewrite !http_calls_app. cbn [http_calls omap list_omap app].
  rewrite !app_nil_r, <- !app_assoc. cbn [app].
  destruct (provider env _ _) as [r|e]; [|done].
  by destruct (negb (status_code r =? 200)%Z).
Qed.

Lemma process_phone_run phone tr :
  ∃ status evs,
    (∀ results, process_phone env results phone tr
                = (Ok (results ++ [welcome_result phone status]), tr ++ evs))
    ∧ classifies status (provider env (http_calls tr) (message_request env phone))
    ∧ http_calls evs = [message_request env phone].
Proof.
  unfold process_phone, bind, try_except, ret. rewrite new_user_send_run.
  cbv zeta. destruct (provider env _ _) as [r|e].
  - destruct (Z.eqb_spec (status_code r) 200) as [Heq|Hne]; cbn [negb].
    + eexists (py "sent"), _. by split; [|split; [apply classifies_sent|]].
    + eexists (py "failed"), _. rewrite <- app_assoc.
      by split; [|split; [apply classifies_failed|]].
  - eexists (py "error: " ++ exn_str e), _.
    by split; [|split; [apply classifies_error|]].
Qed.

Lemma process_phone_one_request :
  one_request (process_phone env) (message_request env).
Proof.
  intros phone tr.
  destruct (process_phone_run phone tr) as (status & evs & Hrun & _ & Hcall).
  eauto.
Qed.

End new_user_send.

(** ** msg_existing_user.py: sending one welcome *)

Section existing_user_send.
Import msg_existing_user.
Context (env : Env).

Lemma existing_user_send_run phone dealer_name dealer_code tr :
  send_whatsapp_msg env phone dealer_name dealer_code tr =
  let msg := message_request env phone dealer_name dealer_code in
  let tr1 := tr ++ [Http msg] in
  match provider env (http_calls tr) msg with
  | Raised e => (Raised e, tr1)
  | Ok r =>
      if negb (status_code r =? 200)%Z then
        (Ok false,
         tr1 ++ [StError (FText (py "WhatsApp API error for " ++ phone
                                 ++ py ": " ++ text r))])
      else (Ok true, tr1)
  end.
Proof.
  unfold send_whatsapp_msg, bind, st_error, emit, requests_post, ret.
  cbv zeta.
  destruct (provider env _ _) as [r|e]; [|done].
  by destruct (negb (status_code r =? 200)%Z).
Qed.

Lemma process_row_run item tr :
  ∃ status evs,
    (∀ results, process_row env results item tr
                = (Ok (results ++ [welcome_result item.1 status]), tr ++ evs))
    ∧ classifies status (provider env (http_calls tr) (row_request env item))
    ∧ http_calls evs = [row_request env item].
Proof.
  destruct item as (phone & dealer_name & dealer_code).
  unfold process_row, row_request, bind, try_except, ret.
  rewrite existing_user_send_run.
  cbv zeta. cbn [fst snd]. destruct (provider env _ _) as [r|e].
  - destruct (Z.eqb_spec (status_code r) 200) as [Heq|Hne]; cbn [negb].
    + eexists (py "sent"), _. by split; [|split; [apply classifies_sent|]].
    + eexists (py "failed"), _. rewrite <- app_assoc.
      by split; [|split; [apply classifies_failed|]].
  - eexists (py "error: " ++ exn_str e), _.
    by split; [|split; [apply classifies_error|]].
Qed.

Lemma process_row_one_request :
  one_request (process_row env) (row_request env).
Proof.
  intros item tr.
  destruct (process_row_run item tr) as (status & evs & Hrun & _ & Hcall).
  eauto.
Qed.

End existing_user_send.

(** ** Tables: trimming and the mask of incomplete rows *)

Section tables.
Implicit Types (df : DataFrame) (r : str → cell) (mask : list bool).

Lemma foldl_trim_column_rows cols df :
  Forall2 (row_trimmed cols) (rows df) (rows (foldl trim_column df cols)).
Proof.
  revert df. induction cols as [|col cols IH]; intros df; simpl.
  - apply Forall2_same_length_lookup_2; [done|].
    intros i r r' Hr Hr' c. simplify_eq.
    rewrite bool_decide_eq_false_2; [done | apply not_elem_of_nil].
  - specialize (IH (trim_column df col)). simpl in IH.
    pose proof (proj1 (Forall2_fmap_l _ _ _ _) IH) as IH'.
    eapply Forall2_impl; [exact IH'|].
    intros r r' Hr c. rewrite (Hr c).
    destruct (decide (c ∈ cols)) as [Hin|Hnin].
    + rewrite (bool_decide_eq_true_2 (c ∈ cols)) by done.
      rewrite (bool_decide_eq_true_2 (c ∈ col :: cols)) by (by right).
      case_bool_decide; simplify_eq/=; [by rewrite strip_idemp | done].
    + rewrite (bool_decide_eq_false_2 (c ∈ cols)) by done.
      case_bool_decide as Hc; simplify_eq/=.
      * rewrite bool_decide_eq_true_2; [done | by left].
      * rewrite bool_decide_eq_false_2; [done|].
        by intros [?|?]%elem_of_cons.
Qed.

Lemma row_trimmed_at_col cols r r' col :
  row_trimmed cols r r' → col ∈ cols →
  at_col r' col = strip (astype_str (r col)).
Proof.
  intros Hr Hcol. unfold at_col. rewrite (Hr col).
  by rewrite bool_decide_eq_true_2.
Qed.

Lemma row_trimmed_eq_empty cols r r' col :
  row_trimmed cols r r' → col ∈ cols →
  eq_empty (r' col) = true ↔ whitespace_only (astype_str (r col)).
Proof.
  intros Hr Hcol. rewrite (Hr col), bool_decide_eq_true_2 by done.
  split.
  - intros H. apply strip_nil_inv. simpl in H. by destruct (strip _).
  - intros H. simpl. by rewrite strip_whitespace.
Qed.

Lemma row_trimmed_incomplete cols r r' :
  row_trimmed cols r r' →
  existsb (λ col, eq_empty (r' col)) cols = true ↔ incomplete cols r.
Proof.
  intros Hr. unfold incomplete. rewrite existsb_exists, Exists_exists.
  split; intros (col & Hin & H); exists col.
  - apply list_elem_of_In in Hin. split; [done|].
    by apply (row_trimmed_eq_empty cols r r').
  - split; [by apply list_elem_of_In|].
    by apply (row_trimmed_eq_empty cols r r').
Qed.

Lemma marks_incomplete_fmap cols (test : (str → cell) → bool) rs rs' :
  Forall2 (row_trimmed cols) rs rs' →
  (∀ r', test r' = existsb (λ col, eq_empty (r' col)) cols) →
  marks_incomplete cols rs (test <$> rs').
Proof.
  intros Hrs Htest. apply Forall2_fmap_r.
  eapply Forall2_impl; [exact Hrs|]. intros r r' Hr.
  unfold compose. rewrite Htest. by apply row_trimmed_incomplete.
Qed.

Lemma any_true mask : any mask = true ↔ ∃ i, mask !! i = Some true.
Proof.
  unfold any. rewrite existsb_exists. split.
  - intros (b & Hin & Hb). unfold id in Hb. subst b.
    apply list_elem_of_In, list_elem_of_lookup in Hin. done.
  - intros (i & Hi). exists true. split; [|done].
    apply list_elem_of_In, list_elem_of_lookup. eauto.
Qed.

Lemma index_where_elem_of mask i j :
  j ∈ index_where mask i ↔ ∃ k, j = i + k ∧ mask !! k = Some true.
Proof.
  revert i. induction mask as [|b mask IH]; intros i; simpl.
  - split; [by intros ?%elem_of_nil | by intros (k & _ & ?)].
  - assert (Hshift : (∃ k, j = S i + k ∧ mask !! k = Some true)
                     ↔ ∃ k, j = i + S k ∧ mask !! k = Some true).
    { split; intros (k & -> & Hk); exists k; split; (lia || done). }
    destruct b.
    + rewrite elem_of_cons, IH, Hshift. split.
      * intros [-> | (k & -> & Hk)]; [exists 0 | exists (S k)];
          split; (lia || done).
      * intros ([|k] & -> & Hk); [left; lia | right; by exists k].
    + rewrite IH, Hshift. split.
      * intros (k & -> & Hk). by exists (S k).
      * intros ([|k] & -> & Hk); [done | by exists k].
Qed.

Lemma index_where_sorted mask i : StronglySorted lt (index_where mask i).
Proof.
  revert i. induction mask as [|b mask IH]; intros i; simpl.
  - constructor.
  - destruct b; [|apply IH]. constructor; [apply IH|].
    apply Forall_forall. intros j (k & -> & _)%index_where_elem_of. lia.
Qed.

Lemma marks_incomplete_any cols rs mask :
  marks_incomplete cols rs mask →
  any mask = true ↔ Exists (incomplete cols) rs.
Proof.
  intros Hm. rewrite any_true, Exists_exists. split.
  - intros (i & Hi).
    destruct (Forall2_lookup_r _ _ _ _ _ Hm Hi) as (r & Hr & Hb).
    exists r. split; [by eapply list_elem_of_lookup_2 | by apply Hb].
  - intros (r & (i & Hi)%list_elem_of_lookup & Hr).
    destruct (Forall2_lookup_l _ _ _ _ _ Hm Hi) as (b & Hb & Hbr).
    exists i. apply Hbr in Hr. by subst b.
Qed.

Lemma marks_incomplete_index cols rs mask i :
  marks_incomplete cols rs mask →
  i ∈ index_where mask 0 ↔ ∃ r, rs !! i = Some r ∧ incomplete cols r.
Proof.
  intros Hm. rewrite index_where_elem_of. split.
  - intros (k & -> & Hk).
    destruct (Forall2_lookup_r _ _ _ _ _ Hm Hk) as (r & Hr & Hb).
    exists r. split; [done | by apply Hb].
  - intros (r & Hi & Hr).
    destruct (Forall2_lookup_l _ _ _ _ _ Hm Hi) as (b & Hb & Hbr).
    exists i. split; [done|]. apply Hbr in Hr. by subst b.
Qed.

Lemma Forall2_foldl {X Y S} (R : X → Y → Prop) (f : S → X → S)
    (g : S → Y → S) l l' s :
  Forall2 R l l' → (∀ s x y, R x y → g s y = f s x) →
  foldl g s l' = foldl f s l.
Proof.
  intros Hl Hfg. revert s. induction Hl as [|x y l l' Hxy _ IH]; intros s.
  - done.
  - simpl. rewrite (Hfg s x y Hxy). apply IH.
Qed.

Lemma Forall2_fmap_eq {X Y Z} (R : X → Y → Prop) (f : X → Z) (g : Y → Z)
    l l' :
  Forall2 R l l' → (∀ x y, R x y → g y = f x) → g <$> l' = f <$> l.
Proof.
  intros Hl Hfg. induction Hl as [|x y l l' Hxy _ IH]; [done|].
  rewrite !fmap_cons. by rewrite (Hfg x y Hxy), IH.
Qed.

End tables.

(** ** invoice_message.py: the validator *)

Section invoice_validate.
Import invoice_message invoice_spec.
Implicit Types (df : DataFrame) (r : str → cell) (tr : list event).

Lemma row_trimmed_key_of r r' :
  row_trimmed REQUIRED_COLUMNS r r' →
  at_col r' (py "invoice number") = key_of r.
Proof.
  intros Hr. apply (row_trimmed_at_col _ _ _ _ Hr).
  unfold REQUIRED_COLUMNS. set_solver.
Qed.

Lemma row_trimmed_info_of r r' :
  row_trimmed REQUIRED_COLUMNS r r' →
  {| phone := at_col r' (py "phone number");
     dealer := at_col r' (py "dealer name");
     amount := at_col r' (py "amount") |} = info_of r.
Proof.
  intros Hr. unfold info_of.
  rewrite !(row_trimmed_at_col _ _ _ _ Hr)
    by (unfold REQUIRED_COLUMNS; set_solver).
  done.
Qed.

(** The run of [validate_data] on a table with the required columns,
    told on the rows of the table as loaded. *)
Lemma invoice_validate_data_run df filenames tr :
  issubset REQUIRED_COLUMNS df = true →
  ∃ mask,
    marks_incomplete REQUIRED_COLUMNS (rows df) mask ∧
    validate_data df filenames tr =
    if any mask then
      (Ok None,
       tr ++ [StWarning (FRows (py "Rows with missing values: ")
                           (index_where mask 0));
              StInfo (FText (py "Fill all required fields and re-upload."))])
    else
      let missing : gset str :=
        list_to_set (key_of <$> rows df)
        ∖ list_to_set (omap extract_invoice_number filenames) in
      if bool_decide (missing ≠ ∅) then
        (Ok None,
         tr ++ [StWarning
                  (FKeys (py "Invoice numbers in Excel but not in files: ")
                     missing);
                StInfo (FText
                          (py "Upload the missing invoice files and try again."))])
      else
        (Ok (Some (foldl (λ m r, <[key_of r := info_of r]> m) ∅ (rows df))),
         tr).
Proof.
  intros Hsub. unfold validate_data. rewrite Hsub. cbn [negb].
  pose proof (foldl_trim_column_rows REQUIRED_COLUMNS df) as Htrim.
  set (df' := foldl trim_column df REQUIRED_COLUMNS) in *.
  exists ((λ r, existsb (λ col, eq_empty (r col)) REQUIRED_COLUMNS) <$> rows df').
  split; [by apply marks_incomplete_fmap|].
  cbv zeta. destruct (any _).
  { run_emits. }
  rewrite (Forall2_fmap_eq _ key_of _ _ _ Htrim row_trimmed_key_of).
  destruct (bool_decide _).
  { run_emits. }
  unfold ret. do 3 f_equal.
  apply (Forall2_foldl (row_trimmed REQUIRED_COLUMNS)); [done|].
  intros m r r' Hr.
  by rewrite (row_trimmed_key_of _ _ Hr), (row_trimmed_info_of _ _ Hr).
Qed.

(** Building the mapping: the last row of a key wins. *)
Lemma mapping_lookup_last (rs1 rs2 : list (str → cell)) r (m0 : gmap str info) :
  Forall (λ r', key_of r' ≠ key_of r) rs2 →
  foldl (λ m r, <[key_of r := info_of r]> m) m0 (rs1 ++ r :: rs2) !! key_of r
  = Some (info_of r).
Proof.
  intros Hlater. rewrite foldl_app. simpl.
  generalize (foldl (λ m r0, <[key_of r0 := info_of r0]> m) m0 rs1).
  intros m1.
  assert (Hkeep : ∀ m : gmap str info, m !! key_of r = Some (info_of r) →
    foldl (λ m r0, <[key_of r0 := info_of r0]> m) m rs2 !! key_of r
    = Some (info_of r)).
  { induction Hlater as [|r' rs2 Hne _ IH]; intros m Hm; simpl; [done|].
    apply IH. by rewrite lookup_insert_ne. }
  apply Hkeep. apply lookup_insert_eq.
Qed.

Lemma mapping_dom (rs : list (str → cell)) (m0 : gmap str info) :
  dom (foldl (λ m r, <[key_of r := info_of r]> m) m0 rs)
  = dom m0 ∪ list_to_set (key_of <$> rs).
Proof.
  revert m0. induction rs as [|r rs IH]; intros m0; simpl.
  - set_solver.
  - rewrite IH, dom_insert_L. set_solver.
Qed.

End invoice_validate.

(** ** The validators of the two welcome pages *)

Section welcome_validate.
Implicit Types (df : DataFrame) (r : str → cell) (tr : list event).

Lemma unique_from_elem_of seen l x :
  x ∈ unique_from seen l ↔ x ∈ l ∧ x ∉ seen.
Proof.
  revert seen. induction l as [|y l IH]; intros seen; simpl.
  - split; [by intros ?%elem_of_nil | by intros [?%elem_of_nil _]].
  - case_bool_decide as Hy.
    + rewrite IH, elem_of_cons. split; [naive_solver|].
      intros [[->|?] ?]; done.
    + rewrite !elem_of_cons, IH, elem_of_cons. split.
      * intros [->|[? ?]]; [by auto|]. split; [by right|]. tauto.
      * intros [[->|?] ?]; [by left|].
        destruct (decide (x = y)) as [->|?]; [by left|]. right. tauto.
Qed.

Lemma unique_from_NoDup seen l : NoDup (unique_from seen l).
Proof.
  revert seen. induction l as [|y l IH]; intros seen; simpl.
  - constructor.
  - case_bool_decide; [apply IH|]. constructor; [|apply IH].
    rewrite unique_from_elem_of, elem_of_cons. tauto.
Qed.

Lemma unique_elem_of l x : x ∈ unique l ↔ x ∈ l.
Proof.
  unfold unique. rewrite unique_from_elem_of. split; [tauto|].
  intros ?. split; [done | apply not_elem_of_nil].
Qed.

Lemma unique_NoDup l : NoDup (unique l).
Proof. apply unique_from_NoDup. Qed.

Lemma new_user_validate_data_run df tr :
  issubset welcome_new_user.REQUIRED_COLUMNS df = true →
  ∃ mask,
    marks_incomplete welcome_new_user.REQUIRED_COLUMNS (rows df) mask ∧
    welcome_new_user.validate_data df tr =
    if any mask then
      (Ok None,
       tr ++ [StWarning (FRows (py "Rows with missing phone numbers: ")
                           (index_where mask 0));
              StInfo (FText (py "Fill all phone numbers and re-upload."))])
    else
      (Ok (Some (unique (trimmed_cell (py "phone number") <$> rows df))), tr).
Proof.
  intros Hsub. unfold welcome_new_user.validate_data. rewrite Hsub.
  cbn [negb].
  pose proof (foldl_trim_column_rows welcome_new_user.REQUIRED_COLUMNS df)
    as Htrim.
  change (foldl trim_column df welcome_new_user.REQUIRED_COLUMNS)
    with (trim_column df (py "phone number")) in Htrim.
  set (df' := trim_column df (py "phone number")) in *.
  exists ((λ r, eq_empty (r (py "phone number"))) <$> rows df').
  split.
  { apply marks_incomplete_fmap; [done|]. intros r'. simpl.
    by rewrite orb_false_r. }
  cbv zeta. destruct (any _).
  { run_emits. }
  unfold ret. do 4 f_equal.
  apply (Forall2_fmap_eq (row_trimmed welcome_new_user.REQUIRED_COLUMNS));
    [done|].
  intros r r' Hr. apply (row_trimmed_at_col _ _ _ _ Hr).
  unfold welcome_new_user.REQUIRED_COLUMNS. set_solver.
Qed.

Lemma existing_user_validate_data_run df tr :
  issubset msg_existing_user.REQUIRED_COLUMNS df = true →
  ∃ mask,
    marks_incomplete msg_existing_user.REQUIRED_COLUMNS (rows df) mask ∧
    msg_existing_user.validate_data df tr =
    if any mask then
      (Ok None,
       tr ++ [StWarning (FRows (py "Rows with missing phone numbers: ")
                           (index_where mask 0));
              StInfo (FText (py "Fill all phone numbers and re-upload."))])
    else
      (Ok (Some (trimmed_cell (py "phone number") <$> rows df,
                 trimmed_cell (py "dealer name") <$> rows df,
                 trimmed_cell (py "dealer code") <$> rows df)), tr).
Proof.
  intros Hsub. unfold msg_existing_user.validate_data. rewrite Hsub.
  cbn [negb].
  pose proof (foldl_trim_column_rows msg_existing_user.REQUIRED_COLUMNS df)
    as Htrim.
  change (foldl trim_column df msg_existing_user.REQUIRED_COLUMNS)
    with (trim_column (trim_column (trim_column df (py "phone number"))
                         (py "dealer name")) (py "dealer code")) in Htrim.
  set (df' := trim_column (trim_column _ _) _) in *.
  eexists ((λ r, _) <$> rows df').
  split.
  { apply marks_incomplete_fmap; [done|]. intros r'. simpl.
    by rewrite orb_false_r, orb_assoc. }
  cbv zeta. destruct (any _).
  { run_emits. }
  assert (Hcol : ∀ col, col ∈ msg_existing_user.REQUIRED_COLUMNS →
            (λ row, at_col row col) <$> rows df'
            = trimmed_cell col <$> rows df).
  { intros col Hin.
    apply (Forall2_fmap_eq (row_trimmed msg_existing_user.REQUIRED_COLUMNS));
      [done|].
    intros r r' Hr. by apply (row_trimmed_at_col _ _ _ _ Hr). }
  unfold ret.
  rewrite !Hcol by (unfold msg_existing_user.REQUIRED_COLUMNS; set_solver).
  done.
Qed.

End welcome_validate.

(** ** The body of an upload response *)

Lemma json_get_has_media_identifier r v :
  has_media_identifier r v ↔ json_get r (py "id") = Ok v ∧ truthy v = true.
Proof.
  unfold has_media_identifier, json_get. split.
  - intros (items & -> & Hget & Hv). by rewrite Hget.
  - intros [Hget Hv]. destruct (json r) as [[| | | | |items]|]; simplify_eq.
    exists items. destruct (items_get items _) as [v'|]; by simplify_eq/=.
Qed.

Lemma json_get_lacks_media_identifier r :
  lacks_media_identifier r ↔
  ∃ v, json_get r (py "id") = Ok v ∧ truthy v = false.
Proof.
  unfold lacks_media_identifier, json_get. split.
  - intros (items & -> & [Hget | (v & Hget & Hv)]); rewrite Hget.
    + by exists VNone.
    + by exists v.
  - intros (v & Hget & Hv).
    destruct (json r) as [[| | | | |items]|]; simplify_eq.
    exists items. split; [done|].
    destruct (items_get items _) as [v'|]; [right; by exists v' | by left].
Qed.

Lemma json_get_undecodable r e :
  undecodable r e ↔ json_get r (py "id") = Raised e.
Proof.
  unfold undecodable, json_get. split.
  - intros [-> | (v & -> & Hv & ->)]; [done|].
    destruct v; try done. by destruct (Hv items).
  - destruct (json r) as [v|e'] eqn:Hjson; [|intros [= ->]; by left].
    intros Hget. right. exists v.
    destruct v; simplify_eq; by repeat split.
Qed.

(** ** What a successful validation tells *)

Section validated.
Implicit Types (df : DataFrame) (tr : list event).

Lemma marks_incomplete_none cols rs mask :
  marks_incomplete cols rs mask → any mask = false →
  Forall (λ r, ¬ incomplete cols r) rs.
Proof.
  intros Hm Hany. apply Forall_forall. intros r Hr Hinc.
  assert (any mask = true); [|congruence].
  apply (marks_incomplete_any _ _ _ Hm), Exists_exists. eauto.
Qed.

Lemma invoice_validate_data_Some df filenames tr m tr' :
  invoice_message.validate_data df filenames tr = (Ok (Some m), tr') →
  issubset invoice_message.REQUIRED_COLUMNS df = true
  ∧ Forall (λ r, ¬ incomplete invoice_message.REQUIRED_COLUMNS r) (rows df)
  ∧ list_to_set (invoice_spec.key_of <$> rows df)
    ⊆@{gset str} list_to_set (omap invoice_message.extract_invoice_number
                                filenames)
  ∧ tr' = tr
  ∧ m = foldl (λ m r, <[invoice_spec.key_of r := invoice_spec.info_of r]> m)
          ∅ (rows df).
Proof.
  intros Hrun.
  destruct (issubset invoice_message.REQUIRED_COLUMNS df) eqn:Hsub.
  2:{ unfold invoice_message.validate_data in Hrun. rewrite Hsub in Hrun.
      discriminate Hrun. }
  destruct (invoice_validate_data_run df filenames tr Hsub)
    as (mask & Hmask & Heq).
  rewrite Heq in Hrun. destruct (any mask) eqn:Hany; [discriminate Hrun|].
  cbv zeta in Hrun. case_bool_decide as Hmiss; [discriminate Hrun|].
  simplify_eq. split_and!; try done.
  - by apply (marks_incomplete_none _ _ mask).
  - set_solver.
Qed.

Lemma new_user_validate_data_Some df tr phones tr' :
  welcome_new_user.validate_data df tr = (Ok (Some phones), tr') →
  issubset welcome_new_user.REQUIRED_COLUMNS df = true
  ∧ Forall (λ r, ¬ incomplete welcome_new_user.REQUIRED_COLUMNS r) (rows df)
  ∧ tr' = tr
  ∧ phones = unique (trimmed_cell (py "phone number") <$> rows df).
Proof.
  intros Hrun.
  destruct (issubset welcome_new_user.REQUIRED_COLUMNS df) eqn:Hsub.
  2:{ unfold welcome_new_user.validate_data in Hrun. rewrite Hsub in Hrun.
      discriminate Hrun. }
  destruct (new_user_validate_data_run df tr Hsub) as (mask & Hmask & Heq).
  rewrite Heq in Hrun. destruct (any mask) eqn:Hany; [discriminate Hrun|].
  simplify_eq. split_and!; try done.
  by apply (marks_incomplete_none _ _ mask).
Qed.

Lemma existing_user_validate_data_Some df tr phones names codes tr' :
  msg_existing_user.validate_data df tr
  = (Ok (Some (phones, names, codes)), tr') →
  issubset msg_existing_user.REQUIRED_COLUMNS df = true
  ∧ Forall (λ r, ¬ incomplete msg_existing_user.REQUIRED_COLUMNS r) (rows df)
  ∧ tr' = tr
  ∧ phones = trimmed_cell (py "phone number") <$> rows df
  ∧ names = trimmed_cell (py "dealer name") <$> rows df
  ∧ codes = trimmed_cell (py "dealer code") <$> rows df.
Proof.
  intros Hrun.
  destruct (issubset msg_existing_user.REQUIRED_COLUMNS df) eqn:Hsub.
  2:{ unfold msg_existing_user.validate_data in Hrun. rewrite Hsub in Hrun.
      discriminate Hrun. }
  destruct (existing_user_validate_data_run df tr Hsub)
    as (mask & Hmask & Heq).
  rewrite Heq in Hrun. destruct (any mask) eqn:Hany; [discriminate Hrun|].
  simplify_eq. split_and!; try done.
  by apply (marks_incomplete_none _ _ mask).
Qed.

Lemma zip_fmap_3 {X} (f g h : X → str) (l : list X) :
  zip (f <$> l) (zip (g <$> l) (h <$> l)) = (λ x, (f x, (g x, h x))) <$> l.
Proof.
  induction l as [|x l IH]; [done|].
  rewrite !fmap_cons. simpl. by rewrite IH.
Qed.

End validated.

(** * The claims *)

Section claims.
Import invoice_message invoice_spec.

(** C1, as the code has it.  Key derivation is a function of the filename
    alone (the same filename always gives the same key), and deriving
    again from a derived key gives that key back; on the examples,
    ["A1_x.pdf"] gives ["A1"], ["noUnderscore.pdf"] gives the whole name
    ["noUnderscore.pdf"] (nothing removes the extension), and the empty
    filename gives [None]. *)
Theorem key_derivation_pure_idempotent :
  (∀ f, extract_invoice_number f = extract_invoice_number f)
  ∧ (∀ f, extract_invoice_number f ≫= extract_invoice_number
          = extract_invoice_number f)
  ∧ extract_invoice_number (py "A1_x.pdf") = Some (py "A1")
  ∧ extract_invoice_number (py "noUnderscore.pdf")
    = Some (py "noUnderscore.pdf")
  ∧ extract_invoice_number (py "") = None.
Proof.
  repeat split.
  intros f. destruct (extract_invoice_number f) as [k|] eqn:Hk; [|done].
  simpl. by apply extract_invoice_number_fixed with f.
Qed.

(** C1 as stated fails on its second example: the key of
    ["noUnderscore.pdf"] is not ["noUnderscore"]. *)
Lemma key_of_noUnderscore_pdf :
  extract_invoice_number (py "noUnderscore.pdf") ≠ Some (py "noUnderscore").
Proof. discriminate. Qed.

(** C3, as the code has it.  The key of a filename is the prefix before
    its first ["_"] (the whole filename when it has none) without its
    leading and trailing whitespace; it is [None] exactly when that prefix
    is empty or whitespace only. *)
Theorem key_is_trimmed_prefix f :
  ∃ p, before_first_underscore f p
       ∧ (extract_invoice_number f = None ↔ whitespace_only p)
       ∧ (∀ k, extract_invoice_number f = Some k ↔ k ≠ [] ∧ trimmed_of p k).
Proof.
  exists (split_underscore_0 f). split; [apply split_underscore_0_spec|].
  split; [apply extract_invoice_number_None|].
  intros k. apply extract_invoice_number_Some.
Qed.

(** C3 as stated fails: ["noUnderscore.pdf"] has no ["_"], and its key is
    not [None]. *)
Lemma key_without_underscore_not_None :
  ¬ (extract_invoice_number (py "noUnderscore.pdf") = None
     ↔ underscore ∉ py "noUnderscore.pdf").
Proof.
  intros [_ H].
  destruct (split_underscore_0_spec (py "noUnderscore.pdf")) as [Hno _].
  specialize (H Hno). discriminate H.
Qed.

(** C10.  A filename whose prefix before the first ["_"] is empty or
    whitespace only has no key, and the dispatcher skips a document with
    such a name: it records [skipped] and leaves the trace as it was. *)
Theorem blank_prefix_skipped env mapping results doc p tr :
  before_first_underscore (name doc) p →
  whitespace_only p →
  extract_invoice_number (name doc) = None
  ∧ process_file env mapping results doc tr
    = (Ok (results ++ [dict_items [("file", VStr (name doc));
                                   ("invoice", VNone);
                                   ("status", VStr (py "skipped"))]]),
       tr).
Proof.
  intros Hp Hws.
  assert (Hnone : extract_invoice_number (name doc) = None).
  { apply extract_invoice_number_None.
    by rewrite (split_underscore_0_unique _ _ Hp). }
  split; [done|].
  rewrite process_file_skipped by (intros inv; by rewrite Hnone).
  unfold skipped_result. by rewrite Hnone.
Qed.

Lemma blank_prefix_skipped_witness :
  extract_invoice_number (py "_copy.pdf") = None
  ∧ process_file sample.env_up sample.acme_mapping [] sample.nameless_pdf []
    = (Ok [dict_items [("file", VStr (py "_copy.pdf"));
                       ("invoice", VNone);
                       ("status", VStr (py "skipped"))]],
       []).
Proof.
  apply (blank_prefix_skipped sample.env_up sample.acme_mapping []
           sample.nameless_pdf []).
  - split; [apply not_elem_of_nil | right; by eexists].
  - constructor.
Defined.

Example blank_prefix_examples :
  extract_invoice_number (py "_copy.pdf") = None
  ∧ extract_invoice_number (py "   _x.pdf") = None
  ∧ extract_invoice_number (py " A1 _x.pdf") = Some (py "A1").
Proof. by repeat split. Qed.

(** C6.  A document whose key is [None] or absent from the mapping gets a
    [skipped] row and leaves the trace untouched (no upload, no message);
    the loop goes on: the rows of the documents before and after it are
    those of the runs without it, the later run starting from the trace
    the earlier one left. *)
Theorem unmatched_document_skipped env mapping pre doc post tr :
  extract_invoice_number (name doc) = None
  ∨ (∃ k, extract_invoice_number (name doc) = Some k ∧ mapping !! k = None) →
  status_of (skipped_result doc) = Some (VStr (py "skipped"))
  ∧ (∀ results t,
       process_file env mapping results doc t
       = (Ok (results ++ [skipped_result doc]), t))
  ∧ ∃ rs1 tr1 rs2 tr2,
      process_and_send env mapping pre tr = (Ok rs1, tr1)
      ∧ process_and_send env mapping post tr1 = (Ok rs2, tr2)
      ∧ process_and_send env mapping (pre ++ doc :: post) tr
        = (Ok (rs1 ++ skipped_result doc :: rs2), tr2).
Proof.
  intros Hdoc.
  assert (Hskip : ∀ results t,
    process_file env mapping results doc t
    = (Ok (results ++ [skipped_result doc]), t)).
  { intros results t. apply process_file_skipped. intros inv Hinv.
    destruct Hdoc as [Hnone | (k & Hk & Hm)]; congruence. }
  split; [done|]. split; [done|].
  pose proof (process_file_appends env mapping) as Happ.
  destruct (for_each_appends _ pre tr Happ) as (rs1 & evs1 & _ & Hpre).
  destruct (for_each_appends _ post (tr ++ evs1) Happ)
    as (rs2 & evs2 & _ & Hpost).
  exists rs1, (tr ++ evs1), rs2, ((tr ++ evs1) ++ evs2).
  unfold process_and_send. rewrite Hpre, Hpost. repeat split.
  apply for_each_app with (tr1 := tr ++ evs1); [done | by rewrite Hpre |].
  simpl. unfold bind. rewrite (Hskip [] (tr ++ evs1)).
  by rewrite Hpost.
Qed.

Lemma unmatched_document_skipped_witness :
  status_of (skipped_result sample.inv200_pdf) = Some (VStr (py "skipped"))
  ∧ (∀ results t,
       process_file sample.env_up sample.acme_mapping results
         sample.inv200_pdf t
       = (Ok (results ++ [skipped_result sample.inv200_pdf]), t))
  ∧ ∃ rs1 tr1 rs2 tr2,
      process_and_send sample.env_up sample.acme_mapping
        [sample.inv100_pdf] [] = (Ok rs1, tr1)
      ∧ process_and_send sample.env_up sample.acme_mapping
          [sample.inv100_pdf] tr1 = (Ok rs2, tr2)
      ∧ process_and_send sample.env_up sample.acme_mapping
          ([sample.inv100_pdf] ++ sample.inv200_pdf :: [sample.inv100_pdf]) []
        = (Ok (rs1 ++ skipped_result sample.inv200_pdf :: rs2), tr2).
Proof.
  apply (unmatched_document_skipped sample.env_up sample.acme_mapping
           [sample.inv100_pdf] sample.inv200_pdf [sample.inv100_pdf] []).
  right. exists (py "INV200"). split; [reflexivity | by vm_compute].
Defined.

(** C7, as the code has it.  When the provider answers the media upload
    of a dispatched document with a status other than 200, or with a body
    that carries no media identifier, the upload is the only request made
    for the document: no message is sent.  The row records [failed] when
    the status is not 200 or the body is a JSON object without a (truthy)
    ["id"]; it records ["error: "] and the text of the exception when the
    status is 200 and the body cannot be decoded as a JSON object. *)
Theorem upload_without_identifier_stops_item
    env mapping results doc inv i tr r1 :
  extract_invoice_number (name doc) = Some inv →
  mapping !! inv = Some i →
  provider env (http_calls tr) (upload_request env inv (read doc)) = Ok r1 →
  status_code r1 ≠ 200%Z ∨ ¬ (∃ id, has_media_identifier r1 id) →
  ∃ status evs,
    process_file env mapping results doc tr
    = (Ok (results ++ [attempted_result doc inv i status]), tr ++ evs)
    ∧ status_of (attempted_result doc inv i status) = Some (VStr status)
    ∧ http_calls evs = [upload_request env inv (read doc)]
    ∧ is_media_upload (upload_request env inv (read doc))
    ∧ ¬ is_message_send (upload_request env inv (read doc))
    ∧ (status_code r1 ≠ 200%Z ∨ lacks_media_identifier r1 →
       status = py "failed")
    ∧ (∀ e, status_code r1 = 200%Z → undecodable r1 e →
            status = py "error: " ++ exn_str e)
    ∧ (status = py "failed" ∨ ∃ e, status = py "error: " ++ exn_str e).
Proof.
  intros Hinv Hi Hup Hfail.
  rewrite (process_file_attempted env _ _ _ _ _ _ Hinv Hi).
  rewrite send_whatsapp_msg_run. cbv zeta. rewrite Hup.
  assert (Hurl : is_media_upload (upload_request env inv (read doc))
                 ∧ ¬ is_message_send (upload_request env inv (read doc))).
  { unfold is_media_upload, is_message_send. split.
    - exists (py "https://graph.facebook.com/v22.0/905890485940579").
      reflexivity.
    - intros (pre & Hpre). apply (f_equal reverse) in Hpre.
      rewrite reverse_app in Hpre. vm_compute in Hpre. discriminate Hpre. }
  destruct Hurl as [Hmedia Hnot_send].
  destruct (Z.eqb_spec (status_code r1) 200) as [H200|Hne]; cbn [negb].
  2:{ eexists _, _. rewrite <- app_assoc. split; [done|]. split_and!; try done.
      by left. }
  destruct Hfail as [Hne | Hnone]; [done|].
  destruct (json_get r1 (py "id")) as [id|e] eqn:Hid.
  - destruct (truthy id) eqn:Htruthy; cbn [negb].
    { destruct Hnone. exists id. by apply json_get_has_media_identifier. }
    eexists _, _. rewrite <- app_assoc. split; [done|]. split_and!; try done.
    + intros e _ Hund%json_get_undecodable. congruence.
    + by left.
  - eexists _, _. split; [done|]. split_and!; try done.
    + intros [? | (v & Hget & _)%json_get_lacks_media_identifier];
        [done | congruence].
    + intros e' _ Hund%json_get_undecodable. congruence.
    + right. by exists e.
Qed.

Lemma upload_without_identifier_stops_item_witness :
  ∃ status evs,
    process_file sample.env_down sample.acme_mapping [] sample.inv100_pdf []
    = (Ok ([] ++ [attempted_result sample.inv100_pdf (py "INV100") sample.acme
                    status]), [] ++ evs)
    ∧ status_of (attempted_result sample.inv100_pdf (py "INV100") sample.acme
                   status)
      = Some (VStr status)
    ∧ http_calls evs
      = [upload_request sample.env_down (py "INV100") (read sample.inv100_pdf)]
    ∧ is_media_upload
        (upload_request sample.env_down (py "INV100") (read sample.inv100_pdf))
    ∧ ¬ is_message_send
          (upload_request sample.env_down (py "INV100")
             (read sample.inv100_pdf))
    ∧ (status_code sample.rejected ≠ 200%Z
       ∨ lacks_media_identifier sample.rejected →
       status = py "failed")
    ∧ (∀ e, status_code sample.rejected = 200%Z →
            undecodable sample.rejected e →
            status = py "error: " ++ exn_str e)
    ∧ (status = py "failed" ∨ ∃ e, status = py "error: " ++ exn_str e).
Proof.
  apply (upload_without_identifier_stops_item sample.env_down
           sample.acme_mapping [] sample.inv100_pdf (py "INV100") sample.acme
           [] sample.rejected).
  - reflexivity.
  - by vm_compute.
  - reflexivity.
  - left. simpl. lia.
Defined.

(** C7 as stated fails on an upload answered 200 with a body that is not
    JSON: the body carries no media identifier, and the row records the
    exception, not [failed]; no message is sent. *)
Lemma undecodable_upload_is_error_not_failed :
  status_code sample.not_json = 200%Z
  ∧ ¬ (∃ id, has_media_identifier sample.not_json id)
  ∧ ∃ evs,
      process_file sample.env_html sample.acme_mapping [] sample.inv100_pdf []
      = (Ok [attempted_result sample.inv100_pdf (py "INV100") sample.acme
               (py "error: Expecting value")], evs)
      ∧ status_of (attempted_result sample.inv100_pdf (py "INV100")
                     sample.acme (py "error: Expecting value"))
        ≠ Some (VStr (py "failed"))
      ∧ http_calls evs
        = [upload_request sample.env_html (py "INV100")
             (read sample.inv100_pdf)].
Proof.
  split; [reflexivity|]. split.
  - intros (id & items & Hjson & _). discriminate Hjson.
  - eexists. split; [vm_compute; reflexivity|].
    split; [discriminate | vm_compute; reflexivity].
Qed.



(** The end-to-end scenario: the roster row of ["INV100"] and the file
    ["INV100_copy.pdf"], with a provider that answers 200 to both calls,
    give one [sent] row after an upload and a message. *)
Example end_to_end_sent :
  validate_data sample.roster [py "INV100_copy.pdf"] []
  = (Ok (Some sample.acme_mapping), [])
  ∧ ∃ tr,
      process_and_send sample.env_up sample.acme_mapping [sample.inv100_pdf] []
      = (Ok [attempted_result sample.inv100_pdf (py "INV100") sample.acme
               (py "sent")], tr)
      ∧ http_calls tr
        = [upload_request sample.env_up (py "INV100") (read sample.inv100_pdf);
           message_request sample.env_up (py "9999999999") (py "Acme")
             (py "INV100") (py "500") (VStr (py "M1"))].
Proof.
  split; [vm_compute; reflexivity|]. eexists. split; reflexivity.
Qed.

(** C2.  The new-user page sends to the distinct phone numbers of the
    table, one message each: the list it dispatches has no duplicates and
    the same members as the trimmed phone column, and the requests made
    are one per member of that list.  The existing-user page keeps the
    column as it is and makes one request per row of the table, repeated
    phone numbers included. *)
Theorem deduplication_asymmetry env :
  (∀ df tr phones tr',
     welcome_new_user.validate_data df tr = (Ok (Some phones), tr') →
     NoDup phones
     ∧ (∀ p, p ∈ phones ↔ p ∈ trimmed_cell (py "phone number") <$> rows df)
     ∧ ∃ rs evs,
         welcome_new_user.process_and_send env phones tr' = (Ok rs, tr' ++ evs)
         ∧ length rs = length phones
         ∧ http_calls evs = welcome_new_user.message_request env <$> phones)
  ∧ (∀ df tr phones names codes tr',
       msg_existing_user.validate_data df tr
       = (Ok (Some (phones, names, codes)), tr') →
       phones = trimmed_cell (py "phone number") <$> rows df
       ∧ ∃ rs evs,
           msg_existing_user.process_and_send env phones names codes tr'
           = (Ok rs, tr' ++ evs)
           ∧ length rs = length (rows df)
           ∧ http_calls evs
             = (λ r, msg_existing_user.message_request env
                       (trimmed_cell (py "phone number") r)
                       (trimmed_cell (py "dealer name") r)
                       (trimmed_cell (py "dealer code") r)) <$> rows df).
Proof.
  split.
  - intros df tr phones tr' (_ & _ & -> & ->)%new_user_validate_data_Some.
    split; [apply unique_NoDup|]. split; [intros p; apply unique_elem_of|].
    unfold welcome_new_user.process_and_send.
    destruct (for_each_one_request _ _
                (unique (trimmed_cell (py "phone number") <$> rows df)) tr
                (process_phone_one_request env))
      as (rs & evs & Hrun & Hlen & Hcalls).
    exists rs, evs. by rewrite Hrun.
  - intros df tr phones names codes tr'
      (_ & _ & -> & -> & -> & ->)%existing_user_validate_data_Some.
    split; [done|].
    unfold msg_existing_user.process_and_send. rewrite zip_fmap_3.
    destruct (for_each_one_request _ _
                ((λ r, (trimmed_cell (py "phone number") r,
                        (trimmed_cell (py "dealer name") r,
                         trimmed_cell (py "dealer code") r))) <$> rows df) tr
                (process_row_one_request env))
      as (rs & evs & Hrun & Hlen & Hcalls).
    exists rs, evs. rewrite Hrun. split; [done|].
    rewrite Hlen, length_fmap. split; [done|].
    rewrite Hcalls, <- list_fmap_compose. done.
Qed.

Lemma deduplication_asymmetry_witness :
  (NoDup [py "9999999999"]
   ∧ (∀ p, p ∈ [py "9999999999"]
           ↔ p ∈ trimmed_cell (py "phone number") <$> rows sample.dealers)
   ∧ ∃ rs evs,
       welcome_new_user.process_and_send sample.env_up [py "9999999999"] []
       = (Ok rs, [] ++ evs)
       ∧ length rs = length [py "9999999999"]
       ∧ http_calls evs
         = welcome_new_user.message_request sample.env_up
           <$> [py "9999999999"])
  ∧ ([py "9999999999"; py "9999999999"]
     = trimmed_cell (py "phone number") <$> rows sample.dealers
     ∧ ∃ rs evs,
         msg_existing_user.process_and_send sample.env_up
           [py "9999999999"; py "9999999999"]
           [py "Acme"; py "Acme West"] [py "D1"; py "D2"] []
         = (Ok rs, [] ++ evs)
         ∧ length rs = length (rows sample.dealers)
         ∧ http_calls evs
           = (λ r, msg_existing_user.message_request sample.env_up
                     (trimmed_cell (py "phone number") r)
                     (trimmed_cell (py "dealer name") r)
                     (trimmed_cell (py "dealer code") r))
             <$> rows sample.dealers).
Proof.
  split.
  - apply (proj1 (deduplication_asymmetry sample.env_up) sample.dealers []
             [py "9999999999"] []).
    vm_compute. reflexivity.
  - apply (proj2 (deduplication_asymmetry sample.env_up) sample.dealers []
             [py "9999999999"; py "9999999999"]
             [py "Acme"; py "Acme West"] [py "D1"; py "D2"] []).
    vm_compute. reflexivity.
Defined.

(** C5, where the code goes wrong.  A cell left blank in the sheet is the
    main case of a row with an empty required cell, and the check for
    empty cells does not see it: the blank cell is not the empty string
    once made text, so the roster below, with its phone cell blank, is
    accepted with the phone number ["nan"], and the message goes to
    ["91nan"]; the new-user page takes a blank phone cell as the phone
    number ["nan"] too. *)
Theorem blank_cell_passes_validation :
  issubset REQUIRED_COLUMNS sample.roster_blank_phone = true
  ∧ (∃ r, rows sample.roster_blank_phone !! 0 = Some r
          ∧ is_blank (r (py "phone number")) = true)
  ∧ validate_data sample.roster_blank_phone [py "INV100_copy.pdf"] []
    = (Ok (Some {[ py "INV100" := {| phone := py "nan";
                                     dealer := py "Acme";
                                     amount := py "500" |} ]}), [])
  ∧ (∃ tr,
       main sample.env_up sample.roster_blank_phone [sample.inv100_pdf] []
       = (Ok tt, tr)
       ∧ http_calls tr
         = [upload_request sample.env_up (py "INV100")
              (read sample.inv100_pdf);
            message_request sample.env_up (py "nan") (py "Acme")
              (py "INV100") (py "500") (VStr (py "M1"))])
  ∧ issubset welcome_new_user.REQUIRED_COLUMNS sample.phones_blank = true
  ∧ (∃ r, rows sample.phones_blank !! 1 = Some r
          ∧ is_blank (r (py "phone number")) = true)
  ∧ welcome_new_user.validate_data sample.phones_blank []
    = (Ok (Some [py "9999999999.0"; py "nan"]), []).
Proof.
  split; [reflexivity|]. split; [by eexists|].
  split; [vm_compute; reflexivity|].
  split; [|split; [reflexivity|split; [by eexists | vm_compute; reflexivity]]].
  eexists. split; vm_compute; reflexivity.
Qed.

(** What the check for empty cells does catch.  On each page, a table
    that has the required columns and at least one row with a required
    cell whose text is empty after trimming (an empty string, or
    whitespace only) is rejected: the validator returns [None] and its
    warning lists exactly the indices of those rows; the page then stops,
    and no request is made for any row. *)
Theorem incomplete_rows_abort_batch env :
  (∀ df filenames tr,
     issubset REQUIRED_COLUMNS df = true →
     Exists (incomplete REQUIRED_COLUMNS) (rows df) →
     ∃ idx,
       incomplete_row_indices REQUIRED_COLUMNS df idx
       ∧ validate_data df filenames tr
         = (Ok None,
            tr ++ [StWarning (FRows (py "Rows with missing values: ") idx);
                   StInfo (FText
                             (py "Fill all required fields and re-upload."))])
       ∧ ∀ files, ∃ evs, main env df files tr = (Ok tt, tr ++ evs)
                         ∧ http_calls evs = [])
  ∧ (∀ df tr,
       issubset welcome_new_user.REQUIRED_COLUMNS df = true →
       Exists (incomplete welcome_new_user.REQUIRED_COLUMNS) (rows df) →
       ∃ idx,
         incomplete_row_indices welcome_new_user.REQUIRED_COLUMNS df idx
         ∧ welcome_new_user.validate_data df tr
           = (Ok None,
              tr ++ [StWarning
                       (FRows (py "Rows with missing phone numbers: ") idx);
                     StInfo (FText
                               (py "Fill all phone numbers and re-upload."))])
         ∧ ∃ evs, welcome_new_user.main env df tr = (Ok tt, tr ++ evs)
                  ∧ http_calls evs = [])
  ∧ (∀ df tr,
       issubset msg_existing_user.REQUIRED_COLUMNS df = true →
       Exists (incomplete msg_existing_user.REQUIRED_COLUMNS) (rows df) →
       ∃ idx,
         incomplete_row_indices msg_existing_user.REQUIRED_COLUMNS df idx
         ∧ msg_existing_user.validate_data df tr
           = (Ok None,
              tr ++ [StWarning
                       (FRows (py "Rows with missing phone numbers: ") idx);
                     StInfo (FText
                               (py "Fill all phone numbers and re-upload."))])
         ∧ ∃ evs, msg_existing_user.main env df tr = (Ok tt, tr ++ evs)
                  ∧ http_calls evs = []).
Proof.
  split_and!.
  - intros df filenames tr Hsub Hinc.
    assert (Hv : ∀ fs, ∃ mask,
      marks_incomplete REQUIRED_COLUMNS (rows df) mask ∧ any mask = true
      ∧ validate_data df fs tr
        = (Ok None,
           tr ++ [StWarning (FRows (py "Rows with missing values: ")
                               (index_where mask 0));
                  StInfo (FText
                            (py "Fill all required fields and re-upload."))])).
    { intros fs.
      destruct (invoice_validate_data_run df fs tr Hsub) as (mask & Hm & Hrun).
      exists mask. apply (marks_incomplete_any _ _ _ Hm) in Hinc as Hany.
      by rewrite Hany in Hrun. }
    destruct (Hv filenames) as (mask & Hm & _ & Hrun).
    exists (index_where mask 0). split_and!.
    + split; [apply index_where_sorted|].
      intros i. by apply marks_incomplete_index.
    + done.
    + intros [|file files].
      * eexists. split; [reflexivity | done].
      * destruct (Hv (name <$> file :: files)) as (mask' & _ & _ & Hrun').
        eexists. unfold main, bind. rewrite Hrun'. split; [reflexivity | done].
  - intros df tr Hsub Hinc.
    destruct (new_user_validate_data_run df tr Hsub) as (mask & Hm & Hrun).
    apply (marks_incomplete_any _ _ _ Hm) in Hinc as Hany.
    rewrite Hany in Hrun.
    exists (index_where mask 0). split_and!.
    + split; [apply index_where_sorted|].
      intros i. by apply marks_incomplete_index.
    + done.
    + eexists. unfold welcome_new_user.main, bind. rewrite Hrun.
      split; [reflexivity | done].
  - intros df tr Hsub Hinc.
    destruct (existing_user_validate_data_run df tr Hsub)
      as (mask & Hm & Hrun).
    apply (marks_incomplete_any _ _ _ Hm) in Hinc as Hany.
    rewrite Hany in Hrun.
    exists (index_where mask 0). split_and!.
    + split; [apply index_where_sorted|].
      intros i. by apply marks_incomplete_index.
    + done.
    + eexists. unfold msg_existing_user.main, bind. rewrite Hrun.
      split; [reflexivity | done].
Qed.

Lemma incomplete_rows_abort_batch_witness :
  (∃ idx,
     incomplete_row_indices REQUIRED_COLUMNS sample.roster_no_phone idx
     ∧ validate_data sample.roster_no_phone [py "INV100_copy.pdf"] []
       = (Ok None,
          [] ++ [StWarning (FRows (py "Rows with missing values: ") idx);
                 StInfo (FText
                           (py "Fill all required fields and re-upload."))])
     ∧ ∀ files, ∃ evs,
         main sample.env_up sample.roster_no_phone files [] = (Ok tt, [] ++ evs)
         ∧ http_calls evs = [])
  ∧ (∃ idx,
       incomplete_row_indices welcome_new_user.REQUIRED_COLUMNS
         sample.roster_no_phone idx
       ∧ welcome_new_user.validate_data sample.roster_no_phone []
         = (Ok None,
            [] ++ [StWarning
                     (FRows (py "Rows with missing phone numbers: ") idx);
                   StInfo (FText
                             (py "Fill all phone numbers and re-upload."))])
       ∧ ∃ evs,
           welcome_new_user.main sample.env_up sample.roster_no_phone []
           = (Ok tt, [] ++ evs)
           ∧ http_calls evs = [])
  ∧ (∃ idx,
       incomplete_row_indices msg_existing_user.REQUIRED_COLUMNS
         sample.dealers_blank idx
       ∧ msg_existing_user.validate_data sample.dealers_blank []
         = (Ok None,
            [] ++ [StWarning
                     (FRows (py "Rows with missing phone numbers: ") idx);
                   StInfo (FText
                             (py "Fill all phone numbers and re-upload."))])
       ∧ ∃ evs,
           msg_existing_user.main sample.env_up sample.dealers_blank []
           = (Ok tt, [] ++ evs)
           ∧ http_calls evs = []).
Proof.
  destruct (incomplete_rows_abort_batch sample.env_up) as (Hinv & Hnew & Hold).
  split_and!.
  - apply Hinv; [reflexivity|].
    apply (bool_decide_unpack _). vm_compute. exact I.
  - apply Hnew; [reflexivity|].
    apply (bool_decide_unpack _). vm_compute. exact I.
  - apply Hold; [reflexivity|].
    apply (bool_decide_unpack _). vm_compute. exact I.
Defined.

(** C4, as the code has it.  For a roster table that has the required
    columns and no row with an empty required cell, and a filename list
    that leaves some key of the table without a file, the validator
    returns no mapping and warns with exactly the set of keys of the table
    that no filename derives. *)
Theorem unmatched_invoices_reported df filenames tr :
  issubset REQUIRED_COLUMNS df = true →
  Forall (λ r, ¬ incomplete REQUIRED_COLUMNS r) (rows df) →
  (∃ r, r ∈ rows df
        ∧ ∀ f, f ∈ filenames → extract_invoice_number f ≠ Some (key_of r)) →
  ∃ missing : gset str,
    validate_data df filenames tr
    = (Ok None,
       tr ++ [StWarning
                (FKeys (py "Invoice numbers in Excel but not in files: ")
                   missing);
              StInfo (FText
                        (py "Upload the missing invoice files and try again."))])
    ∧ ∀ k, k ∈ missing ↔
           (∃ r, r ∈ rows df ∧ key_of r = k)
           ∧ ∀ f, f ∈ filenames → extract_invoice_number f ≠ Some k.
Proof.
  intros Hsub Hcomplete (r0 & Hr0 & Hnofile).
  destruct (invoice_validate_data_run df filenames tr Hsub)
    as (mask & Hm & Hrun).
  assert (Hany : any mask = false).
  { destruct (any mask) eqn:Hany; [|done].
    apply (marks_incomplete_any _ _ _ Hm), Exists_exists in Hany
      as (r & Hr & Hinc).
    rewrite Forall_forall in Hcomplete. by destruct (Hcomplete r Hr). }
  rewrite Hany in Hrun. cbv zeta in Hrun.
  set (missing := list_to_set (key_of <$> rows df)
                  ∖ list_to_set (omap extract_invoice_number filenames))
    in Hrun.
  assert (Hspec : ∀ k, k ∈ missing ↔
            (∃ r, r ∈ rows df ∧ key_of r = k)
            ∧ ∀ f, f ∈ filenames → extract_invoice_number f ≠ Some k).
  { intros k. unfold missing.
    rewrite elem_of_difference, !elem_of_list_to_set, list_elem_of_fmap,
      list_elem_of_omap.
    split.
    - intros [(r & -> & Hr) Hnot]. split; [by exists r|].
      intros f Hf Hk. apply Hnot. by exists f.
    - intros [(r & Hr & <-) Hnot]. split; [by exists r|].
      intros (f & Hf & Hk). by apply (Hnot f). }
  exists missing. split; [|done].
  rewrite bool_decide_eq_true_2 in Hrun; [done|].
  intros Hempty. assert (Hin : key_of r0 ∈ missing).
  { apply Hspec. split; [by exists r0 | done]. }
  rewrite Hempty in Hin. by apply not_elem_of_empty in Hin.
Qed.

Lemma unmatched_invoices_reported_witness :
  ∃ missing : gset str,
    validate_data sample.roster [py "INV200_copy.pdf"] []
    = (Ok None,
       [] ++ [StWarning
                (FKeys (py "Invoice numbers in Excel but not in files: ")
                   missing);
              StInfo (FText
                        (py "Upload the missing invoice files and try again."))])
    ∧ ∀ k, k ∈ missing ↔
           (∃ r, r ∈ rows sample.roster ∧ key_of r = k)
           ∧ ∀ f, f ∈ [py "INV200_copy.pdf"] →
                  extract_invoice_number f ≠ Some k.
Proof.
  apply (unmatched_invoices_reported sample.roster [py "INV200_copy.pdf"] []).
  - reflexivity.
  - apply (bool_decide_unpack _). vm_compute. exact I.
  - eexists. split; [apply list_elem_of_here|].
    intros f ->%list_elem_of_singleton. discriminate.
Defined.

(** C4 as stated fails where an earlier check rejects the table: the
    roster below has the key ["INV100"], no file derives it, and the
    validator answers with the warning about incomplete rows, not with
    one about unmatched invoices. *)
Lemma incomplete_row_reported_before_unmatched :
  (∃ r, r ∈ rows sample.roster_no_phone ∧ key_of r = py "INV100")
  ∧ (∀ f, f ∈ [py "INV200_copy.pdf"] →
          extract_invoice_number f ≠ Some (py "INV100"))
  ∧ validate_data sample.roster_no_phone [py "INV200_copy.pdf"] []
    = (Ok None,
       [StWarning (FRows (py "Rows with missing values: ") [0]);
        StInfo (FText (py "Fill all required fields and re-upload."))])
  ∧ ¬ ∃ missing,
        validate_data sample.roster_no_phone [py "INV200_copy.pdf"] []
        = (Ok None,
           [StWarning
              (FKeys (py "Invoice numbers in Excel but not in files: ")
                 missing);
            StInfo (FText
                      (py "Upload the missing invoice files and try again."))]).
Proof.
  split_and!.
  - eexists. split; [apply list_elem_of_here | reflexivity].
  - intros f ->%list_elem_of_singleton. discriminate.
  - reflexivity.
  - intros (missing & H). discriminate H.
Qed.

(** C9.  When validation succeeds, the keys of the mapping are exactly the
    keys of the table, and each key carries the attributes of the last
    row that has it. *)
Theorem mapping_last_row_wins df filenames tr m tr' :
  validate_data df filenames tr = (Ok (Some m), tr') →
  (∀ k, k ∈ dom m ↔ ∃ r, r ∈ rows df ∧ key_of r = k)
  ∧ ∀ rs1 r rs2,
      rows df = rs1 ++ r :: rs2 →
      Forall (λ r', key_of r' ≠ key_of r) rs2 →
      m !! key_of r = Some (info_of r).
Proof.
  intros (_ & _ & _ & -> & ->)%invoice_validate_data_Some. split.
  - intros k. rewrite mapping_dom, dom_empty_L, elem_of_union,
      elem_of_list_to_set, list_elem_of_fmap.
    split.
    + intros [?%not_elem_of_empty | (r & -> & Hr)]; [done | by exists r].
    + intros (r & Hr & <-). right. by exists r.
  - intros rs1 r rs2 -> Hlater. by apply mapping_lookup_last.
Qed.

Lemma mapping_last_row_wins_witness :
  (∀ k, k ∈ dom sample.acme_mapping
        ↔ ∃ r, r ∈ rows sample.roster_twice ∧ key_of r = k)
  ∧ ∀ rs1 r rs2,
      rows sample.roster_twice = rs1 ++ r :: rs2 →
      Forall (λ r', key_of r' ≠ key_of r) rs2 →
      sample.acme_mapping !! key_of r = Some (info_of r).
Proof.
  apply (mapping_last_row_wins sample.roster_twice [py "INV100_copy.pdf"] []
           sample.acme_mapping []).
  vm_compute. reflexivity.
Defined.

End claims.

(** * Beyond the claims *)

(** ** Loops, pass by pass *)

Section passes.
Context {A B : Type}.
Implicit Types (body : list B → A → M (list B)) (l : list A).

Lemma for_each_passes body P l tr :
  pass_spec body P →
  ∃ ds evs, passes P l tr ds evs
            ∧ ∀ s, for_each body l s tr = (Ok (s ++ ds), tr ++ evs).
Proof.
  intros Hbody. revert tr. induction l as [|x l IH]; intros tr.
  - exists [], []. split; [constructor|]. intros s. simpl. unfold ret.
    by rewrite !app_nil_r.
  - destruct (Hbody x tr) as (d & evs & HP & Hx).
    destruct (IH (tr ++ evs)) as (ds & evs' & Hl & Hrun).
    exists (d :: ds), (evs ++ evs'). split; [by constructor|].
    intros s. simpl. unfold bind. rewrite Hx, Hrun.
    by rewrite <- !app_assoc.
Qed.

Lemma passes_Forall2 P (Q : A → B → Prop) l tr ds evs :
  (∀ x t d e, P x t d e → Q x d) →
  passes P l tr ds evs → Forall2 Q l ds.
Proof. intros HPQ. induction 1; constructor; eauto. Qed.

Lemma passes_calls_bound P n l tr (ds : list B) evs :
  (∀ x t d e, P x t d e → length (http_calls e) ≤ n) →
  passes P l tr ds evs → length (http_calls evs) ≤ n * length l.
Proof.
  intros HP. induction 1 as [|x l tr d evs ds evs' Hx _ IH]; simpl; [lia|].
  rewrite http_calls_app, length_app. apply HP in Hx. lia.
Qed.

End passes.

(** ** invoice_message.py: one pass of the dispatch loop *)

Section invoice_passes.
Import invoice_message invoice_spec invoice_pass.
Context (env : Env).

Lemma status_skipped_sent : py "sent" ≠ py "skipped".
Proof. discriminate. Qed.

Lemma status_skipped_failed : py "failed" ≠ py "skipped".
Proof. discriminate. Qed.

Lemma status_skipped_error msg : py "error: " ++ msg ≠ py "skipped".
Proof. discriminate. Qed.

Lemma process_file_pass mapping :
  pass_spec (process_file env mapping) (document_pass env mapping).
Proof.
  intros doc tr.
  assert (Hskip :
    (∀ inv, extract_invoice_number (name doc) = Some inv →
            mapping !! inv = None) →
    ∃ d evs, document_pass env mapping doc tr d evs
             ∧ ∀ s, process_file env mapping s doc tr
                    = (Ok (s ++ [d]), tr ++ evs)).
  { intros Hno. exists (skipped_result doc), []. split; [by left|].
    intros s. rewrite app_nil_r. by apply process_file_skipped. }
  destruct (extract_invoice_number (name doc)) as [inv|] eqn:Hinv;
    [|apply Hskip; congruence].
  destruct (mapping !! inv) as [i|] eqn:Hi; [|apply Hskip; congruence].
  clear Hskip.
  assert (Hrow : ∀ status evs,
    status ≠ py "skipped" →
    (let up := upload_request env inv (read doc) in
     (http_calls evs = [up] ∧ status ≠ py "sent")
     ∨ ∃ r1 id,
         provider env (http_calls tr) up = Ok r1
         ∧ status_code r1 = 200%Z
         ∧ has_media_identifier r1 id
         ∧ http_calls evs
           = [up; message_request env (phone i) (dealer i) inv (amount i) id]) →
    document_pass env mapping doc tr (attempted_result doc inv i status) evs).
  { intros status evs Hstatus Hcalls. right. exists inv, i, status.
    by split_and!. }
  pose proof (process_file_attempted env mapping) as Hrun.
  specialize (λ s, Hrun s doc inv i tr Hinv Hi).
  rewrite send_whatsapp_msg_run in Hrun. cbv zeta in Hrun.
  destruct (provider env (http_calls tr) _) as [r1|e] eqn:Hup.
  2:{ eexists _, _. split; [|exact Hrun].
      apply Hrow; [apply status_skipped_error|]. left.
      split; [done|]. intros H. symmetry in H.
      by apply status_sent_error in H. }
  destruct (Z.eqb_spec (status_code r1) 200) as [H200|Hne]; cbn [negb] in Hrun.
  2:{ rewrite <- app_assoc in Hrun. eexists _, _. split; [|exact Hrun].
      apply Hrow; [apply status_skipped_failed|]. left.
      split; [done|]. intros H. symmetry in H.
      by apply status_sent_failed in H. }
  destruct (json_get r1 (py "id")) as [id|e] eqn:Hid.
  2:{ eexists _, _. split; [|exact Hrun].
      apply Hrow; [apply status_skipped_error|]. left.
      split; [done|]. intros H. symmetry in H.
      by apply status_sent_error in H. }
  destruct (truthy id) eqn:Htruthy; cbn [negb] in Hrun.
  2:{ rewrite <- app_assoc in Hrun. eexists _, _. split; [|exact Hrun].
      apply Hrow; [apply status_skipped_failed|]. left.
      split; [done|]. intros H. symmetry in H.
      by apply status_sent_failed in H. }
  assert (Hhas : has_media_identifier r1 id)
    by (by apply json_get_has_media_identifier).
  destruct (provider env (http_calls tr ++ _) _) as [r2|e].
  2:{ rewrite <- app_assoc in Hrun. eexists _, _. split; [|exact Hrun].
      apply Hrow; [apply status_skipped_error|]. right. by exists r1, id. }
  destruct (negb (status_code r2 =? 200)%Z); rewrite <- ?app_assoc in Hrun.
  - eexists _, _. split; [|exact Hrun].
    apply Hrow; [apply status_skipped_failed|]. right. by exists r1, id.
  - eexists _, _. split; [|exact Hrun].
    apply Hrow; [apply status_skipped_sent|]. right. by exists r1, id.
Qed.

Lemma document_pass_calls_bound mapping doc tr row evs :
  document_pass env mapping doc tr row evs → length (http_calls evs) ≤ 2.
Proof.
  intros [(_ & -> & _) | (inv & i & status & _ & _ & _ & _ & Hcalls)];
    [simpl; lia|].
  destruct Hcalls as [[-> _] | (r1 & id & _ & _ & _ & ->)]; simpl; lia.
Qed.

Lemma document_pass_file mapping doc tr row evs :
  document_pass env mapping doc tr row evs →
  file_of row = Some (VStr (name doc)).
Proof.
  by intros [(-> & _) | (inv & i & status & _ & _ & -> & _)].
Qed.

End invoice_passes.

(** ** The validators: every way out *)

Section validators.
Implicit Types (df : DataFrame) (r : str → cell) (tr : list event).

Lemma issubset_true required df :
  issubset required df = true ↔ ∀ c, c ∈ required → c ∈ columns df.
Proof.
  unfold issubset. rewrite forallb_forall. split.
  - intros H c Hc. apply list_elem_of_In in Hc.
    by apply H, bool_decide_eq_true in Hc.
  - intros H c Hc. apply bool_decide_eq_true, H. by apply list_elem_of_In.
Qed.

Lemma issubset_false required df c :
  c ∈ required → c ∉ columns df → issubset required df = false.
Proof.
  intros Hc Hno. destruct (issubset required df) eqn:Hsub; [|done].
  rewrite issubset_true in Hsub. by destruct Hno; apply Hsub.
Qed.

Lemma strip_clean s : ¬ whitespace_only s → clean (strip s).
Proof.
  intros Hs. destruct (strip_spec s) as (l & r & _ & _ & _ & Hhd & Hlast).
  split; [|done]. intros Hnil. by apply Hs, strip_nil_inv.
Qed.

Lemma complete_trimmed_cell required r col :
  ¬ incomplete required r → col ∈ required → clean (trimmed_cell col r).
Proof.
  intros Hr Hcol. apply strip_clean. intros Hws. apply Hr.
  apply Exists_exists. by exists col.
Qed.

Lemma mapping_lookup_row (rs : list (str → cell))
    (m0 : gmap str invoice_message.info) k i :
  foldl (λ m r, <[invoice_spec.key_of r := invoice_spec.info_of r]> m) m0 rs
    !! k = Some i →
  m0 !! k = Some i
  ∨ ∃ r, r ∈ rs ∧ invoice_spec.key_of r = k ∧ invoice_spec.info_of r = i.
Proof.
  revert m0. induction rs as [|r rs IH]; intros m0; simpl; [by left|].
  intros [Hm | (r' & Hr' & Hk & Hi)]%IH.
  - destruct (decide (invoice_spec.key_of r = k)) as [<-|Hne].
    + rewrite lookup_insert_eq in Hm. right. exists r.
      split; [apply list_elem_of_here|]. split; congruence.
    + rewrite lookup_insert_ne in Hm by done. by left.
  - right. exists r'. split; [by apply list_elem_of_further | done].
Qed.

Lemma file_keys_proper (fs fs' : list str) :
  (∀ k, (∃ f, f ∈ fs ∧ invoice_message.extract_invoice_number f = Some k)
        ↔ ∃ f, f ∈ fs' ∧ invoice_message.extract_invoice_number f = Some k) →
  list_to_set (omap invoice_message.extract_invoice_number fs)
  =@{gset str} list_to_set (omap invoice_message.extract_invoice_number fs').
Proof.
  intros H. apply set_eq. intros k.
  by rewrite !elem_of_list_to_set, !list_elem_of_omap.
Qed.

Lemma invoice_validate_data_accepts df filenames tr :
  issubset invoice_message.REQUIRED_COLUMNS df = true →
  Forall (λ r, ¬ incomplete invoice_message.REQUIRED_COLUMNS r) (rows df) →
  (∀ r, r ∈ rows df →
        ∃ f, f ∈ filenames
             ∧ invoice_message.extract_invoice_number f
               = Some (invoice_spec.key_of r)) →
  invoice_message.validate_data df filenames tr
  = (Ok (Some (foldl (λ m r, <[invoice_spec.key_of r
                               := invoice_spec.info_of r]> m) ∅ (rows df))),
     tr).
Proof.
  intros Hsub Hcomplete Hfiles.
  destruct (invoice_validate_data_run df filenames tr Hsub)
    as (mask & Hm & Hrun).
  rewrite Hrun. destruct (any mask) eqn:Hany.
  { apply (marks_incomplete_any _ _ _ Hm), Exists_exists in Hany
      as (r & Hr & Hinc).
    rewrite Forall_forall in Hcomplete. by destruct (Hcomplete r Hr). }
  cbv zeta. rewrite bool_decide_eq_false_2; [done|].
  intros Hne. apply Hne. apply set_eq. intros k.
  rewrite elem_of_difference, !elem_of_list_to_set, list_elem_of_fmap,
    list_elem_of_omap.
  split; [|by intros ?%not_elem_of_empty].
  intros [(r & -> & Hr) Hnot]. destruct Hnot. by apply Hfiles.
Qed.

Lemma marks_incomplete_all_false cols rs mask :
  marks_incomplete cols rs mask →
  Forall (λ r, ¬ incomplete cols r) rs → any mask = false.
Proof.
  intros Hm Hcomplete. destruct (any mask) eqn:Hany; [|done].
  apply (marks_incomplete_any _ _ _ Hm), Exists_exists in Hany
    as (r & Hr & Hinc).
  rewrite Forall_forall in Hcomplete. by destruct (Hcomplete r Hr).
Qed.

End validators.

(** ** Properties of the validators *)

Section validator_properties.
Import invoice_message invoice_spec.
Implicit Types (df : DataFrame) (tr : list event).

(** X1.  A table that lacks a required column is rejected on each page,
    whatever its rows and the filenames are: the validator returns [None]
    and shows the one error that names the required columns. *)
Theorem missing_column_rejected :
  (∀ df filenames tr c,
     c ∈ REQUIRED_COLUMNS → c ∉ columns df →
     validate_data df filenames tr
     = (Ok None,
        tr ++ [StError (FKeys (py "Excel must have columns: ")
                          (list_to_set REQUIRED_COLUMNS))]))
  ∧ (∀ df tr c,
       c ∈ welcome_new_user.REQUIRED_COLUMNS → c ∉ columns df →
       welcome_new_user.validate_data df tr
       = (Ok None,
          tr ++ [StError (FText (py "Excel must have column: phone number"))]))
  ∧ (∀ df tr c,
       c ∈ msg_existing_user.REQUIRED_COLUMNS → c ∉ columns df →
       msg_existing_user.validate_data df tr
       = (Ok None,
          tr ++ [StError
                   (FText (py "Excel must have column: phone number, dealer name, dealer code"))])).
Proof.
  split_and!.
  - intros df filenames tr c Hc Hno. unfold validate_data.
    rewrite (issubset_false _ _ c Hc Hno). run_emits.
  - intros df tr c Hc Hno. unfold welcome_new_user.validate_data.
    rewrite (issubset_false _ _ c Hc Hno). run_emits.
  - intros df tr c Hc Hno. unfold msg_existing_user.validate_data.
    rewrite (issubset_false _ _ c Hc Hno). run_emits.
Qed.

Lemma missing_column_rejected_witness :
  validate_data sample.dealers [py "INV100_copy.pdf"] []
  = (Ok None,
     [] ++ [StError (FKeys (py "Excel must have columns: ")
                       (list_to_set REQUIRED_COLUMNS))])
  ∧ welcome_new_user.validate_data
      {| columns := [py "dealer name"]; rows := rows sample.dealers |} []
    = (Ok None,
       [] ++ [StError (FText (py "Excel must have column: phone number"))])
  ∧ msg_existing_user.validate_data sample.roster []
    = (Ok None,
       [] ++ [StError
                (FText (py "Excel must have column: phone number, dealer name, dealer code"))]).
Proof.
  destruct missing_column_rejected as (Hinv & Hnew & Hold). split_and!.
  - apply (Hinv sample.dealers _ [] (py "amount")).
    + by apply (bool_decide_unpack _).
    + by apply (bool_decide_unpack _).
  - apply (Hnew _ [] (py "phone number")).
    + by apply (bool_decide_unpack _).
    + by apply (bool_decide_unpack _).
  - apply (Hold sample.roster [] (py "dealer code")).
    + by apply (bool_decide_unpack _).
    + by apply (bool_decide_unpack _).
Defined.

(** X2.  For a table without blank required cells: the invoice validator
    accepts it exactly when the table has every required column, no row
    has a required cell that is empty after trimming, and every row has a
    file whose name gives its key; it then shows nothing. *)
Theorem invoice_validation_accepts_iff df filenames tr :
  Forall (no_blank_cell REQUIRED_COLUMNS) (rows df) →
  ((∃ m tr', validate_data df filenames tr = (Ok (Some m), tr'))
   ↔ (∀ c, c ∈ REQUIRED_COLUMNS → c ∈ columns df)
     ∧ Forall (λ r, ¬ incomplete REQUIRED_COLUMNS r) (rows df)
     ∧ ∀ r, r ∈ rows df →
            ∃ f, f ∈ filenames
                 ∧ extract_invoice_number f = Some (key_of r))
  ∧ ∀ m tr', validate_data df filenames tr = (Ok (Some m), tr') → tr' = tr.
Proof.
  intros _. split.
  - split.
    + intros (m & tr' & (Hsub & Hcomplete & Hkeys & _)%invoice_validate_data_Some).
      split_and!; [by apply issubset_true | done |].
      intros r Hr.
      assert (Hin : key_of r ∈@{gset str}
                    list_to_set (omap extract_invoice_number filenames)).
      { apply Hkeys. rewrite elem_of_list_to_set, list_elem_of_fmap.
        by exists r. }
      by rewrite elem_of_list_to_set, list_elem_of_omap in Hin.
    + intros (Hsub%issubset_true & Hcomplete & Hfiles).
      eexists _, _. by apply invoice_validate_data_accepts.
  - by intros m tr' (_ & _ & _ & -> & _)%invoice_validate_data_Some.
Qed.

Lemma invoice_validation_accepts_iff_witness :
  ((∃ m tr',
      validate_data sample.roster [py "INV100_copy.pdf"] []
      = (Ok (Some m), tr'))
   ↔ (∀ c, c ∈ REQUIRED_COLUMNS → c ∈ columns sample.roster)
     ∧ Forall (λ r, ¬ incomplete REQUIRED_COLUMNS r) (rows sample.roster)
     ∧ ∀ r, r ∈ rows sample.roster →
            ∃ f, f ∈ [py "INV100_copy.pdf"]
                 ∧ extract_invoice_number f = Some (key_of r))
  ∧ ∀ m tr',
      validate_data sample.roster [py "INV100_copy.pdf"] []
      = (Ok (Some m), tr') →
      tr' = [].
Proof.
  apply (invoice_validation_accepts_iff sample.roster [py "INV100_copy.pdf"]
           []).
  by apply (bool_decide_unpack _).
Defined.

(** X3.  For a table without blank required cells: the validators of
    the two welcome pages accept it exactly when it has the required
    columns and no row has a required cell that is empty after trimming;
    the new-user page then returns the distinct trimmed phone numbers,
    the existing-user page the three trimmed columns, row by row, and
    neither shows anything. *)
Theorem welcome_validation_accepts_iff df tr :
  (Forall (no_blank_cell welcome_new_user.REQUIRED_COLUMNS) (rows df) →
   ∀ res tr',
     welcome_new_user.validate_data df tr = (Ok (Some res), tr')
     ↔ (∀ c, c ∈ welcome_new_user.REQUIRED_COLUMNS → c ∈ columns df)
       ∧ Forall (λ r, ¬ incomplete welcome_new_user.REQUIRED_COLUMNS r)
           (rows df)
       ∧ tr' = tr
       ∧ res = unique (trimmed_cell (py "phone number") <$> rows df))
  ∧ (Forall (no_blank_cell msg_existing_user.REQUIRED_COLUMNS) (rows df) →
     ∀ res tr',
       msg_existing_user.validate_data df tr = (Ok (Some res), tr')
       ↔ (∀ c, c ∈ msg_existing_user.REQUIRED_COLUMNS → c ∈ columns df)
         ∧ Forall (λ r, ¬ incomplete msg_existing_user.REQUIRED_COLUMNS r)
             (rows df)
         ∧ tr' = tr
         ∧ res = (trimmed_cell (py "phone number") <$> rows df,
                  trimmed_cell (py "dealer name") <$> rows df,
                  trimmed_cell (py "dealer code") <$> rows df)).
Proof.
  split.
  - intros _ res tr'. split.
    + intros (Hsub & Hcomplete & -> & ->)%new_user_validate_data_Some.
      by split_and!; [apply issubset_true|..].
    + intros (Hsub%issubset_true & Hcomplete & -> & ->).
      destruct (new_user_validate_data_run df tr Hsub) as (mask & Hm & ->).
      by rewrite (marks_incomplete_all_false _ _ _ Hm Hcomplete).
  - intros _ [[phones names] codes] tr'. split.
    + intros (Hsub & Hcomplete & -> & -> & -> & ->)%existing_user_validate_data_Some.
      by split_and!; [apply issubset_true|..].
    + intros (Hsub%issubset_true & Hcomplete & -> & [= -> -> ->]).
      destruct (existing_user_validate_data_run df tr Hsub)
        as (mask & Hm & ->).
      by rewrite (marks_incomplete_all_false _ _ _ Hm Hcomplete).
Qed.

Lemma welcome_validation_accepts_iff_witness :
  (∀ res tr',
     welcome_new_user.validate_data sample.dealers [] = (Ok (Some res), tr')
     ↔ (∀ c, c ∈ welcome_new_user.REQUIRED_COLUMNS →
             c ∈ columns sample.dealers)
       ∧ Forall (λ r, ¬ incomplete welcome_new_user.REQUIRED_COLUMNS r)
           (rows sample.dealers)
       ∧ tr' = []
       ∧ res = unique (trimmed_cell (py "phone number")
                       <$> rows sample.dealers))
  ∧ (∀ res tr',
       msg_existing_user.validate_data sample.dealers []
       = (Ok (Some res), tr')
       ↔ (∀ c, c ∈ msg_existing_user.REQUIRED_COLUMNS →
               c ∈ columns sample.dealers)
         ∧ Forall (λ r, ¬ incomplete msg_existing_user.REQUIRED_COLUMNS r)
             (rows sample.dealers)
         ∧ tr' = []
         ∧ res = (trimmed_cell (py "phone number") <$> rows sample.dealers,
                  trimmed_cell (py "dealer name") <$> rows sample.dealers,
                  trimmed_cell (py "dealer code") <$> rows sample.dealers)).
Proof.
  destruct (welcome_validation_accepts_iff sample.dealers []) as [Hnew Hold].
  split.
  - apply Hnew. by apply (bool_decide_unpack _).
  - apply Hold. by apply (bool_decide_unpack _).
Defined.

(** X4.  For a table without blank required cells: in the mapping the
    invoice validator returns, every entry comes from a row of the table,
    and its key, phone, dealer and amount are never empty and carry no
    whitespace at either end. *)
Theorem mapping_entries_clean df filenames tr m tr' k i :
  Forall (no_blank_cell REQUIRED_COLUMNS) (rows df) →
  validate_data df filenames tr = (Ok (Some m), tr') →
  m !! k = Some i →
  (∃ r, r ∈ rows df ∧ k = key_of r ∧ i = info_of r)
  ∧ clean k ∧ clean (phone i) ∧ clean (dealer i) ∧ clean (amount i).
Proof.
  intros _ (_ & Hcomplete & _ & _ & ->)%invoice_validate_data_Some Hk.
  apply mapping_lookup_row in Hk as [Hk | (r & Hr & <- & <-)];
    [by rewrite lookup_empty in Hk|].
  split; [by exists r|].
  rewrite Forall_forall in Hcomplete. specialize (Hcomplete r Hr).
  split_and!; apply (complete_trimmed_cell _ _ _ Hcomplete);
    unfold REQUIRED_COLUMNS; set_solver.
Qed.

Lemma mapping_entries_clean_witness :
  (∃ r, r ∈ rows sample.roster ∧ py "INV100" = key_of r
        ∧ sample.acme = info_of r)
  ∧ clean (py "INV100") ∧ clean (phone sample.acme)
  ∧ clean (dealer sample.acme) ∧ clean (amount sample.acme).
Proof.
  apply (mapping_entries_clean sample.roster [py "INV100_copy.pdf"] []
           sample.acme_mapping []).
  - by apply (bool_decide_unpack _).
  - vm_compute. reflexivity.
  - vm_compute. reflexivity.
Defined.

(** X5.  The invoice validator looks at the filenames only through the
    keys they give: two lists of filenames that give the same keys get
    the same answer and the same messages, whatever their order, their
    repetitions and the text after the first ["_"]. *)
Theorem validation_depends_on_file_keys df filenames filenames' tr :
  (∀ k, (∃ f, f ∈ filenames ∧ extract_invoice_number f = Some k)
        ↔ ∃ f, f ∈ filenames' ∧ extract_invoice_number f = Some k) →
  validate_data df filenames tr = validate_data df filenames' tr.
Proof.
  intros Hkeys. unfold validate_data. cbv zeta.
  by rewrite (file_keys_proper _ _ Hkeys).
Qed.

Lemma validation_depends_on_file_keys_witness :
  validate_data sample.roster [py "INV100_copy.pdf"; py "notes.txt_"] []
  = validate_data sample.roster
      [py "notes.txt_1"; py " INV100_scan.png"; py "INV100_copy.pdf"] [].
Proof.
  apply (validation_depends_on_file_keys sample.roster).
  intros k. split.
  - intros (f & Hf & Hk).
    apply elem_of_cons in Hf as [->|Hf];
      [|apply list_elem_of_singleton in Hf as ->].
    + exists (py "INV100_copy.pdf"). split; [|done].
      do 2 apply list_elem_of_further. apply list_elem_of_here.
    + exists (py "notes.txt_1"). split; [apply list_elem_of_here | done].
  - intros (f & Hf & Hk).
    apply elem_of_cons in Hf as [->|Hf];
      [|apply elem_of_cons in Hf as [->|Hf];
        [|apply list_elem_of_singleton in Hf as ->]].
    + exists (py "notes.txt_"). split; [|done].
      apply list_elem_of_further, list_elem_of_here.
    + exists (py "INV100_copy.pdf"). split; [apply list_elem_of_here | done].
    + exists (py "INV100_copy.pdf"). split; [apply list_elem_of_here | done].
Defined.

End validator_properties.

(** ** Filenames that follow the convention *)

Section filename_convention.
Import invoice_message.

Lemma whitespace_only_no_underscore s : whitespace_only s → underscore ∉ s.
Proof.
  intros Hs Hin. unfold whitespace_only in Hs. rewrite Forall_forall in Hs.
  by apply Hs in Hin.
Qed.

(** X13.  A filename made as the page asks, [<key>_<anything>], gives
    back its key, whatever follows the first ["_"] and whatever
    whitespace surrounds the key, provided the key is not empty, has no
    ["_"] and no whitespace at either end; the same holds without any
    ["_"] after the key. *)
Theorem key_of_conventional_filename k l r rest :
  clean k → underscore ∉ k →
  whitespace_only l → whitespace_only r →
  extract_invoice_number (l ++ k ++ r ++ underscore :: rest) = Some k
  ∧ extract_invoice_number (l ++ k ++ r) = Some k.
Proof.
  intros (Hne & Hhd & Hlast) Hk Hl Hr.
  assert (Hno : underscore ∉ l ++ k ++ r).
  { rewrite !elem_of_app. intros [Hin | [Hin | Hin]]; [|done|].
    - by apply (whitespace_only_no_underscore l).
    - by apply (whitespace_only_no_underscore r). }
  assert (Htrim : trimmed_of (l ++ k ++ r) k) by (by exists l, r).
  split; apply extract_invoice_number_Some; (split; [done|]).
  - rewrite (split_underscore_0_unique _ (l ++ k ++ r)); [done|].
    split; [done|]. right. exists rest. by rewrite <- !app_assoc.
  - by rewrite split_underscore_0_id.
Qed.

Lemma key_of_conventional_filename_witness :
  extract_invoice_number
    (py " " ++ py "INV 100" ++ py "  " ++ underscore :: py "copy_2.pdf")
  = Some (py "INV 100")
  ∧ extract_invoice_number (py " " ++ py "INV 100" ++ py "  ")
    = Some (py "INV 100").
Proof.
  apply (key_of_conventional_filename (py "INV 100") (py " ") (py "  ")
           (py "copy_2.pdf")).
  - split; [discriminate|]. split; intros c [= <-]; reflexivity.
  - by apply (bool_decide_unpack _).
  - by apply (bool_decide_unpack _).
  - by apply (bool_decide_unpack _).
Defined.

End filename_convention.

(** ** welcome_new_user.py: the order of the phone numbers *)

Section new_user_order.

Lemma unique_from_sublist seen l : unique_from seen l `sublist_of` l.
Proof.
  revert seen. induction l as [|x l IH]; intros seen; simpl.
  - constructor.
  - case_bool_decide.
    + by apply sublist_cons.
    + by apply sublist_skip.
Qed.

Lemma unique_from_fresh seen l :
  NoDup l → (∀ x, x ∈ l → x ∉ seen) → unique_from seen l = l.
Proof.
  intros Hl. revert seen.
  induction Hl as [|x l Hx Hl IH]; intros seen Hfresh; simpl; [done|].
  rewrite bool_decide_eq_false_2 by (apply Hfresh, list_elem_of_here).
  f_equal. apply IH. intros y Hy [->|Hin]%elem_of_cons; [done|].
  by apply (Hfresh y); [apply list_elem_of_further|].
Qed.

(** X11.  The phone numbers the new-user page dispatches keep the order
    of the table: they are the trimmed phone column with later
    repetitions left out, and the column itself when no phone number is
    repeated. *)
Theorem new_user_phones_in_table_order df tr phones tr' :
  welcome_new_user.validate_data df tr = (Ok (Some phones), tr') →
  phones `sublist_of` (trimmed_cell (py "phone number") <$> rows df)
  ∧ head phones = head (trimmed_cell (py "phone number") <$> rows df)
  ∧ (NoDup (trimmed_cell (py "phone number") <$> rows df) →
     phones = trimmed_cell (py "phone number") <$> rows df).
Proof.
  intros (_ & _ & _ & ->)%new_user_validate_data_Some. split_and!.
  - apply unique_from_sublist.
  - by destruct (trimmed_cell _ <$> rows df).
  - intros Hnodup. apply unique_from_fresh; [done|].
    intros x _. apply not_elem_of_nil.
Qed.

Lemma new_user_phones_in_table_order_witness :
  [py "9999999999"]
    `sublist_of` (trimmed_cell (py "phone number") <$> rows sample.dealers)
  ∧ head [py "9999999999"]
    = head (trimmed_cell (py "phone number") <$> rows sample.dealers)
  ∧ (NoDup (trimmed_cell (py "phone number") <$> rows sample.dealers) →
     [py "9999999999"]
     = trimmed_cell (py "phone number") <$> rows sample.dealers).
Proof.
  apply (new_user_phones_in_table_order sample.dealers [] _ []).
  vm_compute. reflexivity.
Defined.

End new_user_order.

(** ** Properties of the dispatch loops *)

Section dispatch_properties.
Import invoice_message invoice_spec invoice_pass.

Lemma process_phone_pass env :
  pass_spec (welcome_new_user.process_phone env)
    (λ phone _ row _, phone_of row = Some (VStr phone)).
Proof.
  intros phone tr.
  destruct (process_phone_run env phone tr) as (status & evs & Hrun & _).
  by exists (welcome_result phone status), evs.
Qed.

Lemma process_row_pass env :
  pass_spec (msg_existing_user.process_row env)
    (λ item _ row _, phone_of row = Some (VStr item.1)).
Proof.
  intros item tr.
  destruct (process_row_run env item tr) as (status & evs & Hrun & _).
  by exists (welcome_result item.1 status), evs.
Qed.

(** X6.  Each loop returns its rows in the order of its input, one row
    per item: the n-th row of the invoice page is about the n-th
    uploaded file, skipped or not, and the n-th row of a welcome page is
    about the n-th phone number. *)
Theorem results_follow_input_order env :
  (∀ mapping files tr,
     ∃ rs evs,
       process_and_send env mapping files tr = (Ok rs, tr ++ evs)
       ∧ file_of <$> rs = (λ doc, Some (VStr (name doc))) <$> files)
  ∧ (∀ phones tr,
       ∃ rs evs,
         welcome_new_user.process_and_send env phones tr = (Ok rs, tr ++ evs)
         ∧ phone_of <$> rs = (λ phone, Some (VStr phone)) <$> phones)
  ∧ (∀ phones names codes tr,
       ∃ rs evs,
         msg_existing_user.process_and_send env phones names codes tr
         = (Ok rs, tr ++ evs)
         ∧ phone_of <$> rs
           = (λ item, Some (VStr item.1)) <$> zip phones (zip names codes)).
Proof.
  split_and!.
  - intros mapping files tr. unfold process_and_send.
    destruct (for_each_passes _ _ files tr (process_file_pass env mapping))
      as (rs & evs & Hpasses & Hrun).
    exists rs, evs. rewrite Hrun. split; [done|].
    apply (Forall2_fmap_eq (λ doc row, file_of row = Some (VStr (name doc))));
      [|done].
    apply (passes_Forall2 _ _ _ _ _ _ (document_pass_file env mapping) Hpasses).
  - intros phones tr. unfold welcome_new_user.process_and_send.
    destruct (for_each_passes _ _ phones tr (process_phone_pass env))
      as (rs & evs & Hpasses & Hrun).
    exists rs, evs. rewrite Hrun. split; [done|].
    apply (Forall2_fmap_eq (λ phone row, phone_of row = Some (VStr phone)));
      [|done].
    by apply (passes_Forall2 _ _ _ _ _ _ (λ _ _ _ _ H, H) Hpasses).
  - intros phones names codes tr. unfold msg_existing_user.process_and_send.
    destruct (for_each_passes _ _ (zip phones (zip names codes)) tr
                (process_row_pass env))
      as (rs & evs & Hpasses & Hrun).
    exists rs, evs. rewrite Hrun. split; [done|].
    apply (Forall2_fmap_eq (λ item row, phone_of row = Some (VStr item.1)));
      [|done].
    by apply (passes_Forall2 _ _ _ _ _ _ (λ _ _ _ _ H, H) Hpasses).
Qed.

(** X7.  On the invoice page a document is either skipped without any
    request, or attempted with the upload as its first request; a message
    is sent only after the upload was answered 200 with a media
    identifier, it carries that identifier, and nothing follows it.  So a
    batch never makes more than two requests per uploaded file. *)
Theorem upload_before_message env mapping files tr :
  ∃ rs evs,
    process_and_send env mapping files tr = (Ok rs, tr ++ evs)
    ∧ passes (document_pass env mapping) files tr rs evs
    ∧ length (http_calls evs) ≤ 2 * length files.
Proof.
  unfold process_and_send.
  destruct (for_each_passes _ _ files tr (process_file_pass env mapping))
    as (rs & evs & Hpasses & Hrun).
  exists rs, evs. rewrite Hrun. split_and!; [done..|].
  apply (passes_calls_bound _ _ _ _ _ _
           (document_pass_calls_bound env mapping) Hpasses).
Qed.

(** X8.  After a successful validation of a table against the names of
    the uploaded files, every row of the table has an uploaded file with
    its key, and the dispatcher skips a document exactly when no row of
    the table has the key of its name. *)
Theorem skipped_iff_no_roster_row env df files tr m tr' :
  validate_data df (name <$> files) tr = (Ok (Some m), tr') →
  (∀ r, r ∈ rows df →
        ∃ doc, doc ∈ files
               ∧ extract_invoice_number (name doc) = Some (key_of r))
  ∧ ∀ doc results t,
      (∃ t', process_file env m results doc t
             = (Ok (results ++ [skipped_result doc]), t'))
      ↔ ¬ ∃ r, r ∈ rows df
               ∧ extract_invoice_number (name doc) = Some (key_of r).
Proof.
  intros (_ & _ & Hkeys & _ & ->)%invoice_validate_data_Some.
  set (m := foldl _ _ _).
  assert (Hdom : ∀ k, is_Some (m !! k) ↔ ∃ r, r ∈ rows df ∧ key_of r = k).
  { intros k. rewrite <- elem_of_dom. unfold m.
    rewrite mapping_dom, dom_empty_L, elem_of_union,
      elem_of_list_to_set, list_elem_of_fmap.
    split.
    - intros [?%not_elem_of_empty | (r & -> & Hr)]; [done | by exists r].
    - intros (r & Hr & <-). right. by exists r. }
  split.
  - intros r Hr.
    assert (Hin : key_of r ∈@{gset str}
                  list_to_set (omap extract_invoice_number (name <$> files))).
    { apply Hkeys. rewrite elem_of_list_to_set, list_elem_of_fmap.
      by exists r. }
    rewrite elem_of_list_to_set, list_elem_of_omap in Hin.
    destruct Hin as (f & (doc & -> & Hdoc)%list_elem_of_fmap & Hf).
    by exists doc.
  - intros doc results t. split.
    + intros (t' & Hskipped) (r & Hr & Hdoc).
      destruct (proj2 (Hdom (key_of r))) as [i Hi]; [by exists r|].
      destruct (process_file_pass env m doc t) as (row & evs & Hpass & Hrun).
      rewrite Hrun in Hskipped.
      injection Hskipped as Hrow%app_inv_head _.
      destruct Hpass as [(_ & _ & Hno) | (inv & i' & status & _ & _ & -> & _)].
      * rewrite (Hno _ Hdoc) in Hi. discriminate Hi.
      * discriminate Hrow.
    + intros Hnone. exists t. apply process_file_skipped.
      intros inv Hinv. destruct (m !! inv) as [i|] eqn:Hi; [|done].
      destruct Hnone. destruct (proj1 (Hdom inv)) as (r & Hr & <-); [done|].
      by exists r.
Qed.

Lemma skipped_iff_no_roster_row_witness :
  (∀ r, r ∈ rows sample.roster →
        ∃ doc, doc ∈ [sample.inv200_pdf; sample.inv100_pdf]
               ∧ extract_invoice_number (name doc) = Some (key_of r))
  ∧ ∀ doc results t,
      (∃ t', process_file sample.env_up sample.acme_mapping results doc t
             = (Ok (results ++ [skipped_result doc]), t'))
      ↔ ¬ ∃ r, r ∈ rows sample.roster
               ∧ extract_invoice_number (name doc) = Some (key_of r).
Proof.
  apply (skipped_iff_no_roster_row sample.env_up sample.roster
           [sample.inv200_pdf; sample.inv100_pdf] [] sample.acme_mapping []).
  vm_compute. reflexivity.
Defined.

End dispatch_properties.

(** ** The pages, from the loaded table to the result table *)

Section pages.
Import invoice_message invoice_spec.
Implicit Types (df : DataFrame) (tr : list event).

(** What a validator leaves in the trace: nothing when it accepts, and a
    text that starts with an error or a warning when it rejects. *)
Lemma invoice_validate_data_total df filenames tr :
  ∃ res evs,
    validate_data df filenames tr = (Ok res, tr ++ evs)
    ∧ http_calls evs = []
    ∧ match res with
      | Some _ => evs = []
      | None => ∃ m rest, evs = StError m :: rest ∨ evs = StWarning m :: rest
      end.
Proof.
  destruct (issubset REQUIRED_COLUMNS df) eqn:Hsub.
  - destruct (invoice_validate_data_run df filenames tr Hsub)
      as (mask & _ & ->).
    destruct (any mask); [eexists None, [_; _]; split; [reflexivity|];
      split; [reflexivity | eexists _, _; by right]|].
    cbv zeta. case_bool_decide.
    + eexists None, [_; _]. split; [reflexivity|].
      split; [reflexivity | eexists _, _; by right].
    + eexists (Some _), []. by rewrite app_nil_r.
  - eexists None, [_].
    split; [unfold validate_data; rewrite Hsub; run_emits|].
    split; [reflexivity | eexists _, _; by left].
Qed.

Lemma new_user_validate_data_total df tr :
  ∃ res evs,
    welcome_new_user.validate_data df tr = (Ok res, tr ++ evs)
    ∧ http_calls evs = []
    ∧ match res with
      | Some _ => evs = []
      | None => ∃ m rest, evs = StError m :: rest ∨ evs = StWarning m :: rest
      end.
Proof.
  destruct (issubset welcome_new_user.REQUIRED_COLUMNS df) eqn:Hsub.
  - destruct (new_user_validate_data_run df tr Hsub) as (mask & _ & ->).
    destruct (any mask); [eexists None, [_; _]; split; [reflexivity|];
      split; [reflexivity | eexists _, _; by right]|].
    eexists (Some _), []. by rewrite app_nil_r.
  - eexists None, [_].
    split; [unfold welcome_new_user.validate_data; rewrite Hsub; run_emits|].
    split; [reflexivity | eexists _, _; by left].
Qed.

Lemma existing_user_validate_data_total df tr :
  ∃ res evs,
    msg_existing_user.validate_data df tr = (Ok res, tr ++ evs)
    ∧ http_calls evs = []
    ∧ match res with
      | Some _ => evs = []
      | None => ∃ m rest, evs = StError m :: rest ∨ evs = StWarning m :: rest
      end.
Proof.
  destruct (issubset msg_existing_user.REQUIRED_COLUMNS df) eqn:Hsub.
  - destruct (existing_user_validate_data_run df tr Hsub) as (mask & _ & ->).
    destruct (any mask); [eexists None, [_; _]; split; [reflexivity|];
      split; [reflexivity | eexists _, _; by right]|].
    eexists (Some _), []. by rewrite app_nil_r.
  - eexists None, [_].
    split; [unfold msg_existing_user.validate_data; rewrite Hsub; run_emits|].
    split; [reflexivity | eexists _, _; by left].
Qed.

(** X12.  On a table whose column names are distinct, no validator
    raises or calls the provider, and none rejects in silence: when it
    returns [None] what it adds to the trace starts with an error or a
    warning, and when it accepts it adds nothing. *)
Theorem rejections_are_reported df :
  NoDup (columns df) →
  (∀ filenames tr,
     ∃ res evs,
       validate_data df filenames tr = (Ok res, tr ++ evs)
       ∧ http_calls evs = []
       ∧ (is_Some res → evs = [])
       ∧ (res = None →
          ∃ m rest, evs = StError m :: rest ∨ evs = StWarning m :: rest))
  ∧ (∀ tr,
       ∃ res evs,
         welcome_new_user.validate_data df tr = (Ok res, tr ++ evs)
         ∧ http_calls evs = []
         ∧ (is_Some res → evs = [])
         ∧ (res = None →
            ∃ m rest, evs = StError m :: rest ∨ evs = StWarning m :: rest))
  ∧ (∀ tr,
       ∃ res evs,
         msg_existing_user.validate_data df tr = (Ok res, tr ++ evs)
         ∧ http_calls evs = []
         ∧ (is_Some res → evs = [])
         ∧ (res = None →
            ∃ m rest, evs = StError m :: rest ∨ evs = StWarning m :: rest)).
Proof.
  intros _. split_and!.
  - intros filenames tr.
    destruct (invoice_validate_data_total df filenames tr)
      as (res & evs & Hrun & Hcalls & Hevs).
    exists res, evs.
    split_and!; [done..| |]; destruct res; try done; by intros [? [=]].
  - intros tr.
    destruct (new_user_validate_data_total df tr)
      as (res & evs & Hrun & Hcalls & Hevs).
    exists res, evs.
    split_and!; [done..| |]; destruct res; try done; by intros [? [=]].
  - intros tr.
    destruct (existing_user_validate_data_total df tr)
      as (res & evs & Hrun & Hcalls & Hevs).
    exists res, evs.
    split_and!; [done..| |]; destruct res; try done; by intros [? [=]].
Qed.

Lemma rejections_are_reported_witness :
  (∀ filenames tr,
     ∃ res evs,
       validate_data sample.roster_no_phone filenames tr = (Ok res, tr ++ evs)
       ∧ http_calls evs = []
       ∧ (is_Some res → evs = [])
       ∧ (res = None →
          ∃ m rest, evs = StError m :: rest ∨ evs = StWarning m :: rest))
  ∧ (∀ tr,
       ∃ res evs,
         welcome_new_user.validate_data sample.roster_no_phone tr
         = (Ok res, tr ++ evs)
         ∧ http_calls evs = []
         ∧ (is_Some res → evs = [])
         ∧ (res = None →
            ∃ m rest, evs = StError m :: rest ∨ evs = StWarning m :: rest))
  ∧ (∀ tr,
       ∃ res evs,
         msg_existing_user.validate_data sample.roster_no_phone tr
         = (Ok res, tr ++ evs)
         ∧ http_calls evs = []
         ∧ (is_Some res → evs = [])
         ∧ (res = None →
            ∃ m rest, evs = StError m :: rest ∨ evs = StWarning m :: rest)).
Proof.
  apply (rejections_are_reported sample.roster_no_phone).
  by apply (bool_decide_unpack _).
Defined.

End pages.

Section page_runs.
Import invoice_message invoice_spec.
Implicit Types (df : DataFrame) (tr : list event).

(** X9.  On a table whose column names are distinct, no page raises, and
    no page makes a request unless its validator accepted the table: on
    the invoice page without uploaded files, and on every page after a
    rejection, the run ends without a single call to the provider. *)
Theorem no_request_without_validation env df :
  NoDup (columns df) →
  (∀ files tr,
     ∃ evs,
       main env df files tr = (Ok tt, tr ++ evs)
       ∧ (http_calls evs ≠ [] →
          files ≠ []
          ∧ ∃ m, validate_data df (name <$> files) tr = (Ok (Some m), tr)))
  ∧ (∀ tr,
       ∃ evs,
         welcome_new_user.main env df tr = (Ok tt, tr ++ evs)
         ∧ (http_calls evs ≠ [] →
            ∃ phones,
              welcome_new_user.validate_data df tr = (Ok (Some phones), tr)))
  ∧ (∀ tr,
       ∃ evs,
         msg_existing_user.main env df tr = (Ok tt, tr ++ evs)
         ∧ (http_calls evs ≠ [] →
            ∃ data,
              msg_existing_user.validate_data df tr = (Ok (Some data), tr))).
Proof.
  intros _. split_and!.
  - intros [|file files] tr.
    { eexists. split; [reflexivity | done]. }
    destruct (invoice_validate_data_total df (name <$> file :: files) tr)
      as ([m|] & evs & Hrun & Hcalls & Hevs).
    + subst evs. rewrite app_nil_r in Hrun.
      destruct (for_each_appends _ (file :: files) tr
                  (process_file_appends env m)) as (rs & evs & _ & Hsend).
      eexists. unfold main, bind, process_and_send. rewrite Hrun, Hsend.
      unfold emit. rewrite <- !app_assoc. split; [reflexivity|].
      intros _. split; [done | by exists m].
    + exists evs. unfold main, bind. rewrite Hrun. split; [done|].
      by rewrite Hcalls.
  - intros tr.
    destruct (new_user_validate_data_total df tr)
      as ([phones|] & evs & Hrun & Hcalls & Hevs).
    + subst evs. rewrite app_nil_r in Hrun.
      destruct (for_each_appends _ phones (tr ++ [StInfo
                  (FCount (py "Found ") (length phones)
                     (py " phone number(s) to process."))])
                  (one_request_appends _ _ (process_phone_one_request env)))
        as (rs & evs & _ & Hsend).
      eexists. unfold welcome_new_user.main, bind,
        welcome_new_user.process_and_send.
      rewrite Hrun. unfold emit at 1. rewrite Hsend.
      unfold emit. rewrite <- !app_assoc. split; [reflexivity|].
      intros _. by exists phones.
    + exists evs. unfold welcome_new_user.main, bind. rewrite Hrun.
      split; [done|]. by rewrite Hcalls.
  - intros tr.
    destruct (existing_user_validate_data_total df tr)
      as ([[[phones names] codes]|] & evs & Hrun & Hcalls & Hevs).
    + subst evs. rewrite app_nil_r in Hrun.
      destruct (for_each_appends _ (zip phones (zip names codes))
                  (tr ++ [StInfo
                            (FCount (py "Found ") (length phones)
                               (py " phone number(s) to process."))])
                  (one_request_appends _ _ (process_row_one_request env)))
        as (rs & evs & _ & Hsend).
      eexists. unfold msg_existing_user.main, bind,
        msg_existing_user.process_and_send.
      rewrite Hrun. unfold emit at 1. rewrite Hsend.
      unfold emit. rewrite <- !app_assoc. split; [reflexivity|].
      intros _. by eexists.
    + exists evs. unfold msg_existing_user.main, bind. rewrite Hrun.
      split; [done|]. by rewrite Hcalls.
Qed.

Lemma no_request_without_validation_witness :
  (∀ files tr,
     ∃ evs,
       main sample.env_up sample.roster_no_phone files tr = (Ok tt, tr ++ evs)
       ∧ (http_calls evs ≠ [] →
          files ≠ []
          ∧ ∃ m, validate_data sample.roster_no_phone (name <$> files) tr
                 = (Ok (Some m), tr)))
  ∧ (∀ tr,
       ∃ evs,
         welcome_new_user.main sample.env_up sample.roster_no_phone tr
         = (Ok tt, tr ++ evs)
         ∧ (http_calls evs ≠ [] →
            ∃ phones,
              welcome_new_user.validate_data sample.roster_no_phone tr
              = (Ok (Some phones), tr)))
  ∧ (∀ tr,
       ∃ evs,
         msg_existing_user.main sample.env_up sample.roster_no_phone tr
         = (Ok tt, tr ++ evs)
         ∧ (http_calls evs ≠ [] →
            ∃ data,
              msg_existing_user.validate_data sample.roster_no_phone tr
              = (Ok (Some data), tr))).
Proof.
  apply (no_request_without_validation sample.env_up sample.roster_no_phone).
  by apply (bool_decide_unpack _).
Defined.

(** X10.  After an accepted table, each page dispatches, then shows the
    number of rows and the table of the rows the loop returned.  On the
    invoice page the number is that of the uploaded files, skipped ones
    included; on the new-user page it is the number of distinct phone
    numbers, announced before the dispatch; on the existing-user page it
    is the number of rows of the table. *)
Theorem accepted_table_is_dispatched_and_shown env :
  (∀ df files tr m,
     files ≠ [] →
     validate_data df (name <$> files) tr = (Ok (Some m), tr) →
     ∃ rs evs,
       process_and_send env m files tr = (Ok rs, tr ++ evs)
       ∧ length rs = length files
       ∧ main env df files tr
         = (Ok tt,
            tr ++ evs
            ++ [StSuccess (FCount (py "Processed ") (length files)
                             (py " file(s)."));
                StDataframe rs]))
  ∧ (∀ df tr phones,
       welcome_new_user.validate_data df tr = (Ok (Some phones), tr) →
       let found :=
         StInfo (FCount (py "Found ") (length phones)
                   (py " phone number(s) to process.")) in
       ∃ rs evs,
         welcome_new_user.process_and_send env phones (tr ++ [found])
         = (Ok rs, (tr ++ [found]) ++ evs)
         ∧ length rs = length phones
         ∧ welcome_new_user.main env df tr
           = (Ok tt,
              tr ++ [found] ++ evs
              ++ [StSuccess (FCount (py "Processed ") (length phones)
                               (py " phone number(s)."));
                  StDataframe rs]))
  ∧ (∀ df tr phones names codes,
       msg_existing_user.validate_data df tr
       = (Ok (Some (phones, names, codes)), tr) →
       let found :=
         StInfo (FCount (py "Found ") (length (rows df))
                   (py " phone number(s) to process.")) in
       ∃ rs evs,
         msg_existing_user.process_and_send env phones names codes
           (tr ++ [found])
         = (Ok rs, (tr ++ [found]) ++ evs)
         ∧ length rs = length (rows df)
         ∧ msg_existing_user.main env df tr
           = (Ok tt,
              tr ++ [found] ++ evs
              ++ [StSuccess (FCount (py "Processed ") (length (rows df))
                               (py " phone number(s)."));
                  StDataframe rs])).
Proof.
  split_and!.
  - intros df files tr m Hfiles Hrun.
    destruct (for_each_appends _ files tr (process_file_appends env m))
      as (rs & evs & Hlen & Hsend).
    exists rs, evs. unfold process_and_send. rewrite Hsend.
    split; [done|]. split; [done|].
    destruct files as [|file files]; [done|].
    unfold main, bind, process_and_send. rewrite Hrun, Hsend.
    cbn [app]. unfold emit. rewrite <- !app_assoc. by rewrite Hlen.
  - intros df tr phones Hrun found.
    destruct (for_each_one_request _ _ phones (tr ++ [found])
                (process_phone_one_request env))
      as (rs & evs & Hsend & Hlen & _).
    exists rs, evs. unfold welcome_new_user.process_and_send.
    rewrite Hsend. split; [done|]. split; [done|].
    unfold welcome_new_user.main, bind, welcome_new_user.process_and_send.
    rewrite Hrun. unfold emit at 1. fold found. rewrite Hsend.
    cbn [app]. unfold emit. rewrite <- !app_assoc. by rewrite Hlen.
  - intros df tr phones names codes Hrun found.
    apply existing_user_validate_data_Some in Hrun as Hcols.
    destruct Hcols as (_ & _ & _ & Hphones & Hnames & Hcodes).
    assert (Hzip : length (zip phones (zip names codes)) = length (rows df)).
    { rewrite Hphones, Hnames, Hcodes, zip_fmap_3. apply length_fmap. }
    assert (Hfound : length phones = length (rows df)).
    { rewrite Hphones. apply length_fmap. }
    destruct (for_each_one_request _ _ (zip phones (zip names codes))
                (tr ++ [found]) (process_row_one_request env))
      as (rs & evs & Hsend & Hlen & _).
    exists rs, evs. unfold msg_existing_user.process_and_send.
    rewrite Hsend. split; [done|]. split; [congruence|].
    unfold msg_existing_user.main, bind, msg_existing_user.process_and_send.
    rewrite Hrun. unfold emit at 1. rewrite Hfound. fold found.
    rewrite Hsend. cbn [app]. unfold emit. rewrite <- !app_assoc.
    by rewrite Hlen, Hzip.
Qed.

Lemma accepted_table_is_dispatched_and_shown_witness :
  (∃ rs evs,
     process_and_send sample.env_up sample.acme_mapping
       [sample.inv200_pdf; sample.inv100_pdf] [] = (Ok rs, [] ++ evs)
     ∧ length rs = length [sample.inv200_pdf; sample.inv100_pdf]
     ∧ main sample.env_up sample.roster
         [sample.inv200_pdf; sample.inv100_pdf] []
       = (Ok tt,
          [] ++ evs
          ++ [StSuccess
                (FCount (py "Processed ")
                   (length [sample.inv200_pdf; sample.inv100_pdf])
                   (py " file(s)."));
              StDataframe rs]))
  ∧ (let found :=
       StInfo (FCount (py "Found ") (length [py "9999999999"])
                 (py " phone number(s) to process.")) in
     ∃ rs evs,
       welcome_new_user.process_and_send sample.env_up [py "9999999999"]
         ([] ++ [found])
       = (Ok rs, ([] ++ [found]) ++ evs)
       ∧ length rs = length [py "9999999999"]
       ∧ welcome_new_user.main sample.env_up sample.dealers []
         = (Ok tt,
            [] ++ [found] ++ evs
            ++ [StSuccess (FCount (py "Processed ")
                             (length [py "9999999999"])
                             (py " phone number(s)."));
                StDataframe rs]))
  ∧ (let found :=
       StInfo (FCount (py "Found ") (length (rows sample.dealers))
                 (py " phone number(s) to process.")) in
     ∃ rs evs,
       msg_existing_user.process_and_send sample.env_up
         [py "9999999999"; py "9999999999"] [py "Acme"; py "Acme West"]
         [py "D1"; py "D2"] ([] ++ [found])
       = (Ok rs, ([] ++ [found]) ++ evs)
       ∧ length rs = length (rows sample.dealers)
       ∧ msg_existing_user.main sample.env_up sample.dealers []
         = (Ok tt,
            [] ++ [found] ++ evs
            ++ [StSuccess (FCount (py "Processed ")
                             (length (rows sample.dealers))
                             (py " phone number(s)."));
                StDataframe rs])).
Proof.
  destruct (accepted_table_is_dispatched_and_shown sample.env_up)
    as (Hinv & Hnew & Hold).
  split_and!.
  - apply Hinv; [discriminate | vm_compute; reflexivity].
  - apply (Hnew sample.dealers [] [py "9999999999"]).
    vm_compute. reflexivity.
  - apply (Hold sample.dealers [] [py "9999999999"; py "9999999999"]
             [py "Acme"; py "Acme West"] [py "D1"; py "D2"]).
    vm_compute. reflexivity.
Defined.

End page_runs.

(** ** Keys that can never match, and failures on screen *)

Section more_properties.
Import invoice_message invoice_spec.
Implicit Types (df : DataFrame) (tr : list event).

(** X14.  A key the code derives from a filename is a part of that
    filename, is not empty, contains no ["_"] and has no whitespace at
    either end. *)
Theorem derived_key_shape f k :
  extract_invoice_number f = Some k →
  clean k ∧ (underscore ∉ k) ∧ ∃ l r, f = l ++ k ++ r.
Proof.
  intros Hk. pose proof (extract_invoice_number_no_underscore _ _ Hk) as Hno.
  apply extract_invoice_number_Some in Hk
    as (Hne & l & r & Hp & _ & _ & Hhd & Hlast).
  split; [done|]. split; [done|].
  destruct (split_underscore_0_spec f) as [_ [Hf | (rest & Hf)]].
  - exists l, r. by rewrite Hf at 1.
  - exists l, (r ++ underscore :: rest). rewrite Hf at 1. rewrite Hp.
    by rewrite <- !app_assoc.
Qed.

Lemma derived_key_shape_witness :
  clean (py "INV100") ∧ (underscore ∉ py "INV100")
  ∧ ∃ l r, py " INV100 _copy_2.pdf" = l ++ py "INV100" ++ r.
Proof.
  apply (derived_key_shape (py " INV100 _copy_2.pdf") (py "INV100")).
  reflexivity.
Defined.

(** X15.  A table with a key that contains ["_"] is never accepted by the
    invoice validator, whatever files are uploaded: no filename gives
    such a key. *)
Theorem key_with_underscore_never_accepted df filenames tr r :
  r ∈ rows df → underscore ∈ key_of r →
  ∃ evs, validate_data df filenames tr = (Ok None, tr ++ evs).
Proof.
  intros Hr Hkey.
  destruct (invoice_validate_data_total df filenames tr)
    as ([m|] & evs & Hrun & _); [|by exists evs].
  apply invoice_validate_data_Some in Hrun as Hok.
  destruct Hok as (_ & _ & Hkeys & _).
  assert (Hin : key_of r ∈@{gset str}
                list_to_set (omap extract_invoice_number filenames)).
  { apply Hkeys. rewrite elem_of_list_to_set, list_elem_of_fmap.
    by exists r. }
  rewrite elem_of_list_to_set, list_elem_of_omap in Hin.
  destruct Hin as (f & _ & Hf).
  by apply extract_invoice_number_no_underscore in Hf.
Qed.

Lemma key_with_underscore_never_accepted_witness :
  ∃ evs,
    validate_data
      {| columns := REQUIRED_COLUMNS;
         rows := [row_of [("invoice number", CStr (py "INV_100"));
                          ("phone number", COther (py "9999999999"));
                          ("dealer name", CStr (py "Acme"));
                          ("amount", COther (py "500"))]] |}
      [py "INV_100_copy.pdf"] []
    = (Ok None, [] ++ evs).
Proof.
  eapply key_with_underscore_never_accepted.
  - apply list_elem_of_here.
  - by apply (bool_decide_unpack _).
Defined.

(** X16.  The row of a dispatched item is [failed] exactly when the pass
    showed an error, and an error shown is always the one for that
    failure, with the text of the provider's response: for a rejected
    upload, for an upload without media identifier, and for a rejected
    message.  A sent message and an exception (recorded in the row only)
    show no error. *)
Theorem failed_rows_are_shown env :
  (∀ mapping results doc inv i tr,
     extract_invoice_number (name doc) = Some inv →
     mapping !! inv = Some i →
     let h := http_calls tr in
     let up := upload_request env inv (read doc) in
     ∃ status evs,
       process_file env mapping results doc tr
       = (Ok (results ++ [attempted_result doc inv i status]), tr ++ evs)
       ∧ (status = py "failed" ↔ ∃ m, StError m ∈ evs)
       ∧ ∀ m, StError m ∈ evs →
           (∃ r1, provider env h up = Ok r1 ∧ status_code r1 ≠ 200%Z
                  ∧ m = FText (py "Failed to upload PDF: " ++ text r1))
           ∨ (∃ r1, provider env h up = Ok r1 ∧ status_code r1 = 200%Z
                    ∧ lacks_media_identifier r1
                    ∧ m = FText (py "No media ID returned: " ++ text r1))
           ∨ (∃ r1 id r2,
                provider env h up = Ok r1 ∧ status_code r1 = 200%Z
                ∧ has_media_identifier r1 id
                ∧ provider env (h ++ [up])
                    (message_request env (phone i) (dealer i) inv (amount i)
                       id) = Ok r2
                ∧ status_code r2 ≠ 200%Z
                ∧ m = FText (py "WhatsApp API error for " ++ phone i
                             ++ py ": " ++ text r2)))
  ∧ (∀ results phone tr,
       ∃ status evs,
         welcome_new_user.process_phone env results phone tr
         = (Ok (results ++ [welcome_result phone status]), tr ++ evs)
         ∧ (status = py "failed" ↔ ∃ m, StError m ∈ evs)
         ∧ ∀ m, StError m ∈ evs →
             ∃ r, provider env (http_calls tr)
                    (welcome_new_user.message_request env phone) = Ok r
                  ∧ status_code r ≠ 200%Z
                  ∧ m = FText (py "WhatsApp API error for " ++ phone
                               ++ py ": " ++ text r))
  ∧ (∀ results item tr,
       ∃ status evs,
         msg_existing_user.process_row env results item tr
         = (Ok (results ++ [welcome_result item.1 status]), tr ++ evs)
         ∧ (status = py "failed" ↔ ∃ m, StError m ∈ evs)
         ∧ ∀ m, StError m ∈ evs →
             ∃ r, provider env (http_calls tr) (row_request env item) = Ok r
                  ∧ status_code r ≠ 200%Z
                  ∧ m = FText (py "WhatsApp API error for " ++ item.1
                               ++ py ": " ++ text r)).
Proof.
  split_and!.
  - intros mapping results doc inv i tr Hinv Hi h up.
    rewrite (process_file_attempted env _ _ _ _ _ _ Hinv Hi).
    rewrite send_whatsapp_msg_run. cbv zeta. fold h up.
    destruct (provider env h up) as [r1|e] eqn:Hup.
    2:{ eexists _, _. split; [done|]. split.
        - split; [by intros ?%symmetry%status_failed_error|].
          intros (m & Hin). no_event Hin.
        - intros m Hin. no_event Hin. }
    destruct (Z.eqb_spec (status_code r1) 200) as [H200|Hne]; cbn [negb].
    2:{ eexists _, _. rewrite <- app_assoc. split; [done|]. split.
        - split; [|done]. intros _. eexists. find_event.
        - intros m Hin. the_event Hin. injection Hin as ->.
          left. by exists r1. }
    destruct (json_get r1 (py "id")) as [id|e] eqn:Hid.
    2:{ eexists _, _. split; [done|]. split.
        - split; [by intros ?%symmetry%status_failed_error|].
          intros (m & Hin). no_event Hin.
        - intros m Hin. no_event Hin. }
    destruct (truthy id) eqn:Htruthy; cbn [negb].
    2:{ eexists _, _. rewrite <- app_assoc. split; [done|]. split.
        - split; [|done]. intros _. eexists. find_event.
        - intros m Hin. the_event Hin. injection Hin as ->.
          right. left. exists r1. split_and!; try done.
          apply json_get_lacks_media_identifier. by exists id. }
    assert (Hhas : has_media_identifier r1 id)
      by (by apply json_get_has_media_identifier).
    destruct (provider env (h ++ [up]) _) as [r2|e] eqn:Hsend.
    2:{ eexists _, _. rewrite <- app_assoc. split; [done|]. split.
        - split; [by intros ?%symmetry%status_failed_error|].
          intros (m & Hin). no_event Hin.
        - intros m Hin. no_event Hin. }
    destruct (Z.eqb_spec (status_code r2) 200) as [H200'|Hne']; cbn [negb].
    + eexists _, _. rewrite <- !app_assoc. split; [done|]. split.
      * split; [by intros ?%status_sent_failed|].
        intros (m & Hin). no_event Hin.
      * intros m Hin. no_event Hin.
    + eexists _, _. rewrite <- !app_assoc. split; [done|]. split.
      * split; [|done]. intros _. eexists. find_event.
      * intros m Hin. the_event Hin. injection Hin as ->.
        right. right. by exists r1, id, r2.
  - intros results phone tr.
    unfold welcome_new_user.process_phone, bind, try_except, ret.
    rewrite new_user_send_run. cbv zeta.
    destruct (provider env _ _) as [r|e] eqn:Hsend.
    2:{ eexists _, _. split; [done|]. split.
        - split; [by intros ?%symmetry%status_failed_error|].
          intros (m & Hin). no_event Hin.
        - intros m Hin. no_event Hin. }
    destruct (Z.eqb_spec (status_code r) 200) as [H200|Hne]; cbn [negb].
    + eexists _, _. split; [done|]. split.
      * split; [by intros ?%status_sent_failed|].
        intros (m & Hin). no_event Hin.
      * intros m Hin. no_event Hin.
    + eexists _, _. rewrite <- app_assoc. split; [done|]. split.
      * split; [|done]. intros _. eexists. find_event.
      * intros m Hin. the_event Hin. injection Hin as ->. by exists r.
  - intros results [phone [dealer_name dealer_code]] tr.
    unfold msg_existing_user.process_row, row_request, bind, try_except, ret.
    rewrite existing_user_send_run. cbv zeta. cbn [fst snd].
    destruct (provider env _ _) as [r|e] eqn:Hsend.
    2:{ eexists _, _. split; [done|]. split.
        - split; [by intros ?%symmetry%status_failed_error|].
          intros (m & Hin). no_event Hin.
        - intros m Hin. no_event Hin. }
    destruct (Z.eqb_spec (status_code r) 200) as [H200|Hne]; cbn [negb].
    + eexists _, _. split; [done|]. split.
      * split; [by intros ?%status_sent_failed|].
        intros (m & Hin). no_event Hin.
      * intros m Hin. no_event Hin.
    + eexists _, _. rewrite <- app_assoc. split; [done|]. split.
      * split; [|done]. intros _. eexists. find_event.
      * intros m Hin. the_event Hin. injection Hin as ->. by exists r.
Qed.

Lemma failed_rows_are_shown_witness :
  ∃ status evs,
    process_file sample.env_down sample.acme_mapping [] sample.inv100_pdf []
    = (Ok ([] ++ [attempted_result sample.inv100_pdf (py "INV100") sample.acme
                    status]), [] ++ evs)
    ∧ status = py "failed"
    ∧ StError (FText (py "Failed to upload PDF: " ++ text sample.rejected))
      ∈ evs.
Proof.
  assert (Hm : sample.acme_mapping !! py "INV100" = Some sample.acme)
    by (vm_compute; reflexivity).
  destruct (proj1 (failed_rows_are_shown sample.env_down) sample.acme_mapping
              [] sample.inv100_pdf (py "INV100") sample.acme [] eq_refl Hm)
    as (status & evs & Hrun & Hfailed & Hshown).
  exists status, evs. split; [exact Hrun|].
  assert (Hin : ∃ m, StError m ∈ evs).
  { apply Hfailed. vm_compute in Hrun. by injection Hrun as <- _. }
  split; [by apply Hfailed|].
  destruct Hin as (m & Hin).
  destruct (Hshown m Hin)
    as [(r1 & [= <-] & _ & ->) | [(r1 & [= <-] & H200 & _)
                                 | (r1 & id & r2 & [= <-] & H200 & _)]];
    [done | discriminate H200 | discriminate H200].
Defined.

End more_properties.
